(** * Shallow embedding of the orchestration core of crewai-content-stragtegy

    Modelled files: [src/core/state.py] (StateManager), [src/core/workflow.py]
    (WorkflowManager), [src/core/recovery.py] (RecoveryManager, SystemState)
    and the parts of [src/core/events.py] that they touch.

    The whole object graph (state manager maps, event emitter queue,
    workflow manager fields, recovery manager fields, checkpoint files) is a
    single record [Sys]; every async method becomes a computation in a small
    state-and-exception monad [M] over [Sys].  A Python exception is a
    [PyError] value (class name and message).  Awaits that only sleep or log
    are modelled as no-ops: the model describes one coroutine running
    without interleaving. *)

From Stdlib Require Import ZArith Lia SpecFloat DecimalString Ascii.
From stdpp Require Import base gmap sets list strings.

Set Warnings "-register-all".
Open Scope string_scope.

(** ** Python exceptions *)

Record PyError := mkPyError { err_type : string; err_msg : string }.

Definition PyError_eq_dec : forall x y : PyError, {x = y} + {x <> y}.
Proof. decide equality; apply String.string_dec. Defined.

(** Result of a Python computation: a value or a raised exception. *)
Inductive Res (A : Type) : Type :=
| Ok (a : A)
| Exc (e : PyError).
Arguments Ok {A} a.
Arguments Exc {A} e.

(** ** Events (src/core/events.py) *)

(** [Event]: generated [event_id] and [timestamp] are not modelled; [data]
    holds the string-valued payload the core puts there. *)
Record Event := mkEvent {
  ev_type : string;
  ev_workflow_id : option string;
  ev_step_id : option string;
  ev_data : list (string * string)
}.

(** ** Python values and JSON *)

(** Python values held by a [SystemState] or by a task's [metadata].
    [PFloat] is a binary64 float in the canonical form of [SpecFloat] (NaN
    payloads are not told apart); [PStrEnum cls v] is the member of value
    [v] of the [str]-mixin enum [cls] (such as [TaskStatus]): [str] comes
    first in its MRO, so it hashes and compares as its value; dictionaries
    are insertion-ordered association lists whose keys are any values;
    [PObj cls key] is an object of any other class [cls] (e.g. a
    [datetime]), [key] standing for what its [__eq__] and [__hash__]
    use. *)
Inductive PyVal : Type :=
| PNone
| PBool (b : bool)
| PInt (z : Z)
| PFloat (f : spec_float)
| PStr (s : string)
| PStrEnum (cls v : string)
| PList (l : list PyVal)
| PTuple (l : list PyVal)
| PDict (d : list (PyVal * PyVal))
| PObj (cls : string) (key : Z).

(** The text [json.dump] writes, as a tree.  [JFloat f] is the text of the
    float [f]: [repr(f)] when [f] is finite, which [json.load] parses back
    to [f], and [Infinity], [-Infinity] or [NaN] otherwise, which it parses
    back to the same infinity or to a NaN.  Object keys are strings. *)
Inductive Json : Type :=
| JNull
| JBool (b : bool)
| JInt (z : Z)
| JFloat (f : spec_float)
| JStr (s : string)
| JArr (l : list Json)
| JObj (o : list (string * Json)).

#[global] Instance spec_float_eq_dec : EqDecision spec_float.
Proof. solve_decision. Defined.

(** Structural equality of values (used for the identity of a task). *)
Fixpoint PyVal_eq_dec (x y : PyVal) {struct x} : {x = y} + {x <> y}.
Proof.
  pose proof (@list_eq_dec PyVal PyVal_eq_dec) as Hl.
  pose proof (@list_eq_dec (PyVal * PyVal) (@prod_eq_dec _ PyVal_eq_dec _ PyVal_eq_dec)) as Hd.
  decide equality;
    first [apply Hl | apply Hd | apply String.string_dec | apply Z.eq_dec | apply bool_dec
          | apply spec_float_eq_dec].
Defined.

#[global] Instance PyVal_eqdec : EqDecision PyVal := PyVal_eq_dec.

(** [int(b)] of a bool. *)
Definition int_of_bool (x : bool) : Z := if x then 1%Z else 0%Z.

(** [f == z] for a float and an int: their exact values are compared. *)
Definition float_eq_int (f : spec_float) (z : Z) : bool :=
  match f with
  | S754_zero _ => Z.eqb z 0
  | S754_finite s m e =>
      let v := if s then Z.neg m else Z.pos m in
      if Z.leb 0 e then Z.eqb z (v * 2 ^ e) else Z.eqb (z * 2 ^ (- e)) v
  | _ => false
  end.

(** Python [==] on the modelled values: [True == 1 == 1.0], floats by
    IEEE equality ([0.0 == -0.0], a NaN equals nothing), a [str]-enum member
    equals its value ([str.__eq__]), lists and tuples are never equal to
    each other, dicts compare as unordered key/value sets: [d1 == d2] when
    they have the same size and each key of [d1] is found in [d2] (the
    first key [==] to it: hashes agree for equal modelled values) with an
    equal value.  Values are compared as distinct objects (the identity
    test that container comparison makes first only matters for a NaN held
    twice). *)
Fixpoint py_eq (a b : PyVal) : bool :=
  let fix eq_list (l1 l2 : list PyVal) : bool :=
    match l1, l2 with
    | [], [] => true
    | x :: l1', y :: l2' => py_eq x y && eq_list l1' l2'
    | _, _ => false
    end in
  match a, b with
  | PNone, PNone => true
  | PBool x, PBool y => Bool.eqb x y
  | PBool x, PInt z | PInt z, PBool x => Z.eqb (int_of_bool x) z
  | PBool x, PFloat f | PFloat f, PBool x => float_eq_int f (int_of_bool x)
  | PInt x, PInt y => Z.eqb x y
  | PInt z, PFloat f | PFloat f, PInt z => float_eq_int f z
  | PFloat x, PFloat y => SFeqb x y
  | (PStr x | PStrEnum _ x), (PStr y | PStrEnum _ y) => String.eqb x y
  | PList l1, PList l2 => eq_list l1 l2
  | PTuple l1, PTuple l2 => eq_list l1 l2
  | PDict d1, PDict d2 =>
      Nat.eqb (length d1) (length d2) &&
      (fix all_in (d : list (PyVal * PyVal)) : bool :=
         match d with
         | [] => true
         | (k, v) :: d' =>
             match list_find (fun p => py_eq k (fst p)) d2 with
             | Some (_, (_, v2)) => py_eq v v2
             | None => false
             end && all_in d'
         end) d1
  | PObj c1 k1, PObj c2 k2 => String.eqb c1 c2 && Z.eqb k1 k2
  | _, _ => false
  end.

(** A dict literal with [str] keys. *)
Definition str_dict (d : list (string * PyVal)) : PyVal :=
  PDict (map (fun kv => (PStr (fst kv), snd kv)) d).

(** ** Data model of the workflow manager (src/core/workflow.py) *)

(** [TaskDefinition]: pydantic has validated [required_resources] into a
    dict of floats and [metadata] into a dict with [str] keys. *)
Record TaskDefinition := mkTask {
  task_id : string;
  name : string;
  description : string;
  agent_pair_id : string;
  dependencies : list string;
  estimated_duration : option Z;
  required_resources : list (string * spec_float);
  metadata : list (string * PyVal)
}.

(** The fields of a task as the dict its [BaseModel.__eq__] compares. *)
Definition task_dict (t : TaskDefinition) : PyVal :=
  str_dict [("task_id", PStr (task_id t)); ("name", PStr (name t));
            ("description", PStr (description t)); ("agent_pair_id", PStr (agent_pair_id t));
            ("dependencies", PList (map PStr (dependencies t)));
            ("estimated_duration", match estimated_duration t with
                                   | Some d => PInt d | None => PNone end);
            ("required_resources",
               str_dict (map (fun kv => (fst kv, PFloat (snd kv))) (required_resources t)));
            ("metadata", str_dict (metadata t))].

(** [task_a == task_b] on two task objects. *)
Definition task_eqb (a b : TaskDefinition) : bool := py_eq (task_dict a) (task_dict b).

Record WorkflowDefinition := mkWorkflow {
  workflow_id : string;
  wf_name : string;
  wf_description : string;
  tasks : list TaskDefinition;
  max_parallel_tasks : Z
}.

(** Item of the [asyncio.PriorityQueue]: [(priority, workflow_id, task)]. *)
Definition QItem : Type := (Z * string * TaskDefinition)%type.

(** ** The whole system state *)

Record Sys := mkSys {
  (* StateManager._states *)
  st_workflow : gmap string string;
  st_debate : gmap string string;
  st_task : gmap string string;
  (* EventEmitter.event_queue: events emitted so far, oldest first *)
  events : list Event;
  (* WorkflowManager *)
  workflows : gmap string WorkflowDefinition;
  active_workflows : gset string;
  max_concurrent_workflows : nat;
  task_queue : list QItem;          (* the heap list of the PriorityQueue *)
  unfinished_tasks : nat;           (* PriorityQueue._unfinished_tasks *)
  active_tasks : Z;                 (* resource_usage.active_tasks *)
  queued_tasks : Z;                 (* resource_usage.queued_tasks *)
  consumers : nat;                  (* _execute_tasks loops spawned *)
  (* RecoveryManager *)
  recovery_attempts : gmap string Z;
  checkpoint_files : gmap string (option Json)  (* None: unparsable file *)
}.

(** ** The state-and-exception monad *)

Definition M (A : Type) : Type := Sys -> Res A * Sys.

Definition ret {A} (a : A) : M A := fun s => (Ok a, s).
Definition raise {A} (e : PyError) : M A := fun s => (Exc e, s).
Definition bind {A B} (m : M A) (k : A -> M B) : M B :=
  fun s => match m s with
           | (Ok a, s') => k a s'
           | (Exc e, s') => (Exc e, s')
           end.
Definition gets {A} (f : Sys -> A) : M A := fun s => (Ok (f s), s).
Definition modify (f : Sys -> Sys) : M unit := fun s => (Ok tt, f s).

(** [try: m except Exception as e: h e] *)
Definition try_except {A} (m : M A) (h : PyError -> M A) : M A :=
  fun s => match m s with
           | (Ok a, s') => (Ok a, s')
           | (Exc e, s') => h e s'
           end.

(** [try: m finally: fin]: an exception of [fin] replaces the outcome. *)
Definition try_finally {A} (m : M A) (fin : M unit) : M A :=
  fun s => match m s with
           | (r, s') => match fin s' with
                        | (Ok _, s'') => (r, s'')
                        | (Exc e, s'') => (Exc e, s'')
                        end
           end.

Notation "'let!' x ':=' m 'in' k" := (bind m (fun x => k))
  (at level 200, x name, m at level 100, k at level 200).
Notation "m ;; k" := (bind m (fun _ => k))
  (at level 100, right associativity).

(** [for x in l: body x] *)
Fixpoint for_each {A} (l : list A) (body : A -> M unit) : M unit :=
  match l with
  | [] => ret tt
  | x :: l' => body x ;; for_each l' body
  end.

(** ** StateManager (src/core/state.py) *)

Inductive StateKind := KWorkflow | KDebate | KTask.

(** Members (values) of [DebateStatus], [WorkflowStatus], [TaskStatus]. *)
Definition members (k : StateKind) : list string :=
  match k with
  | KDebate => ["pending"; "in_progress"; "consensus_reached"; "failed"; "terminated"]
  | KWorkflow => ["pending"; "in_progress"; "completed"; "failed"; "terminated"]
  | KTask => ["pending"; "in_progress"; "completed"; "failed"; "terminated"]
  end.

Definition enum_name (k : StateKind) : string :=
  match k with
  | KDebate => "DebateStatus" | KWorkflow => "WorkflowStatus" | KTask => "TaskStatus"
  end.

(** [StateManager.VALID_TRANSITIONS[state_type].get(current, [])] *)
Definition VALID_TRANSITIONS (k : StateKind) (cur : string) : list string :=
  match k with
  | KDebate =>
      if String.eqb cur "pending" then ["in_progress"; "failed"]
      else if String.eqb cur "in_progress" then ["consensus_reached"; "failed"; "terminated"]
      else if String.eqb cur "consensus_reached" then ["terminated"]
      else if String.eqb cur "failed" then ["terminated"]
      else []
  | KWorkflow | KTask =>
      if String.eqb cur "pending" then ["in_progress"; "failed"]
      else if String.eqb cur "in_progress" then ["completed"; "failed"; "terminated"]
      else if String.eqb cur "completed" then ["terminated"]
      else if String.eqb cur "failed" then ["terminated"]
      else []
  end.

(** [repr] of a [str], for strings whose characters are below [U+0100]
    (one byte each): single quotes unless the text has a single quote and
    no double quote; the backslash and the chosen quote are escaped, tab,
    newline and carriage return are written [\t], [\n], [\r], and the
    other non-printable characters (controls, DEL, [U+0080]..[U+00A0] and
    the soft hyphen [U+00AD]) as [\xhh]. *)
Definition hex_digit (n : nat) : ascii :=
  ascii_of_nat (if Nat.ltb n 10 then 48 + n else 87 + n).

Definition char_repr (q c : ascii) : string :=
  let n := nat_of_ascii c in
  if Ascii.eqb c q || Nat.eqb n 92 then String (ascii_of_nat 92) (String c EmptyString)
  else if Nat.eqb n 9 then String (ascii_of_nat 92) (String "t" EmptyString)
  else if Nat.eqb n 10 then String (ascii_of_nat 92) (String "n" EmptyString)
  else if Nat.eqb n 13 then String (ascii_of_nat 92) (String "r" EmptyString)
  else if Nat.ltb n 32 || Nat.eqb n 127 || (Nat.leb 128 n && Nat.leb n 160) || Nat.eqb n 173
  then String (ascii_of_nat 92) (String "x"
         (String (hex_digit (n / 16)) (String (hex_digit (n mod 16)) EmptyString)))
  else String c EmptyString.

Fixpoint repr_chars (q : ascii) (s : string) : string :=
  match s with
  | EmptyString => EmptyString
  | String c s' => char_repr q c ++ repr_chars q s'
  end.

Fixpoint has_char (c : ascii) (s : string) : bool :=
  match s with
  | EmptyString => false
  | String c' s' => Ascii.eqb c c' || has_char c s'
  end.

Definition py_str_repr (s : string) : string :=
  let dq := ascii_of_nat 34 in
  let q := if has_char "'" s && negb (has_char dq s) then dq else "'"%char in
  String q (repr_chars q s ++ String q EmptyString).

(** [state_type(value)] for a [str] value: the enum lookup by value,
    otherwise [ValueError("%r is not a valid %s" % (value, cls.__qualname__))]. *)
Definition enum_call (k : StateKind) (v : string) : Res string :=
  if decide (v ∈ members k) then Ok v
  else Exc (mkPyError "ValueError" (py_str_repr v ++ " is not a valid " ++ enum_name k)).

Definition StateTransitionError (cur new : string) : PyError :=
  mkPyError "StateTransitionError" ("Invalid transition from " ++ cur ++ " to " ++ new).

(** [StateManager._validate_transition] *)
Definition _validate_transition (cur new : string) (k : StateKind) : Res unit :=
  if String.eqb cur new then Ok tt
  else match enum_call k cur, enum_call k new with
       | Exc e, _ => Exc e
       | Ok _, Exc e => Exc e
       | Ok c, Ok n =>
           if decide (n ∈ VALID_TRANSITIONS k c) then Ok tt
           else Exc (StateTransitionError cur new)
       end.

(** [self._states[kind]] *)
Definition states_of (k : StateKind) (s : Sys) : gmap string string :=
  match k with
  | KWorkflow => st_workflow s | KDebate => st_debate s | KTask => st_task s
  end.

(** Field updates of [Sys] (attribute assignment). *)
Definition set_st_workflow (v : gmap string string) (s : Sys) : Sys :=
  mkSys v (st_debate s) (st_task s) (events s) (workflows s) (active_workflows s) (max_concurrent_workflows s) (task_queue s) (unfinished_tasks s) (active_tasks s) (queued_tasks s) (consumers s) (recovery_attempts s) (checkpoint_files s).
Definition set_st_debate (v : gmap string string) (s : Sys) : Sys :=
  mkSys (st_workflow s) v (st_task s) (events s) (workflows s) (active_workflows s) (max_concurrent_workflows s) (task_queue s) (unfinished_tasks s) (active_tasks s) (queued_tasks s) (consumers s) (recovery_attempts s) (checkpoint_files s).
Definition set_st_task (v : gmap string string) (s : Sys) : Sys :=
  mkSys (st_workflow s) (st_debate s) v (events s) (workflows s) (active_workflows s) (max_concurrent_workflows s) (task_queue s) (unfinished_tasks s) (active_tasks s) (queued_tasks s) (consumers s) (recovery_attempts s) (checkpoint_files s).
Definition set_events (v : list Event) (s : Sys) : Sys :=
  mkSys (st_workflow s) (st_debate s) (st_task s) v (workflows s) (active_workflows s) (max_concurrent_workflows s) (task_queue s) (unfinished_tasks s) (active_tasks s) (queued_tasks s) (consumers s) (recovery_attempts s) (checkpoint_files s).
Definition set_workflows (v : gmap string WorkflowDefinition) (s : Sys) : Sys :=
  mkSys (st_workflow s) (st_debate s) (st_task s) (events s) v (active_workflows s) (max_concurrent_workflows s) (task_queue s) (unfinished_tasks s) (active_tasks s) (queued_tasks s) (consumers s) (recovery_attempts s) (checkpoint_files s).
Definition set_active_workflows (v : gset string) (s : Sys) : Sys :=
  mkSys (st_workflow s) (st_debate s) (st_task s) (events s) (workflows s) v (max_concurrent_workflows s) (task_queue s) (unfinished_tasks s) (active_tasks s) (queued_tasks s) (consumers s) (recovery_attempts s) (checkpoint_files s).
Definition set_max_concurrent_workflows (v : nat) (s : Sys) : Sys :=
  mkSys (st_workflow s) (st_debate s) (st_task s) (events s) (workflows s) (active_workflows s) v (task_queue s) (unfinished_tasks s) (active_tasks s) (queued_tasks s) (consumers s) (recovery_attempts s) (checkpoint_files s).
Definition set_task_queue (v : list QItem) (s : Sys) : Sys :=
  mkSys (st_workflow s) (st_debate s) (st_task s) (events s) (workflows s) (active_workflows s) (max_concurrent_workflows s) v (unfinished_tasks s) (active_tasks s) (queued_tasks s) (consumers s) (recovery_attempts s) (checkpoint_files s).
Definition set_unfinished_tasks (v : nat) (s : Sys) : Sys :=
  mkSys (st_workflow s) (st_debate s) (st_task s) (events s) (workflows s) (active_workflows s) (max_concurrent_workflows s) (task_queue s) v (active_tasks s) (queued_tasks s) (consumers s) (recovery_attempts s) (checkpoint_files s).
Definition set_active_tasks (v : Z) (s : Sys) : Sys :=
  mkSys (st_workflow s) (st_debate s) (st_task s) (events s) (workflows s) (active_workflows s) (max_concurrent_workflows s) (task_queue s) (unfinished_tasks s) v (queued_tasks s) (consumers s) (recovery_attempts s) (checkpoint_files s).
Definition set_queued_tasks (v : Z) (s : Sys) : Sys :=
  mkSys (st_workflow s) (st_debate s) (st_task s) (events s) (workflows s) (active_workflows s) (max_concurrent_workflows s) (task_queue s) (unfinished_tasks s) (active_tasks s) v (consumers s) (recovery_attempts s) (checkpoint_files s).
Definition set_consumers (v : nat) (s : Sys) : Sys :=
  mkSys (st_workflow s) (st_debate s) (st_task s) (events s) (workflows s) (active_workflows s) (max_concurrent_workflows s) (task_queue s) (unfinished_tasks s) (active_tasks s) (queued_tasks s) v (recovery_attempts s) (checkpoint_files s).
Definition set_recovery_attempts (v : gmap string Z) (s : Sys) : Sys :=
  mkSys (st_workflow s) (st_debate s) (st_task s) (events s) (workflows s) (active_workflows s) (max_concurrent_workflows s) (task_queue s) (unfinished_tasks s) (active_tasks s) (queued_tasks s) (consumers s) v (checkpoint_files s).
Definition set_checkpoint_files (v : gmap string (option Json)) (s : Sys) : Sys :=
  mkSys (st_workflow s) (st_debate s) (st_task s) (events s) (workflows s) (active_workflows s) (max_concurrent_workflows s) (task_queue s) (unfinished_tasks s) (active_tasks s) (queued_tasks s) (consumers s) (recovery_attempts s) v.

Definition set_states_of (k : StateKind) (m : gmap string string) (s : Sys) : Sys :=
  match k with
  | KWorkflow => set_st_workflow m s
  | KDebate => set_st_debate m s
  | KTask => set_st_task m s
  end.

(** [StateManager.set_<kind>_state(id, status)]: the current state defaults
    to [PENDING]; after validation the map entry is written and a log line
    is emitted (logging is not modelled).  Nothing is put on the event
    emitter. *)
Definition set_state (k : StateKind) (id status : string) : M unit :=
  fun s =>
    let cur := default "pending" (states_of k s !! id) in
    match _validate_transition cur status k with
    | Exc e => (Exc e, s)
    | Ok _ => (Ok tt, set_states_of k (<[id := status]> (states_of k s)) s)
    end.

Definition set_workflow_state := set_state KWorkflow.
Definition set_debate_state := set_state KDebate.
Definition set_task_state := set_state KTask.

(** [StateManager.get_<kind>_state(id)] *)
Definition get_state (k : StateKind) (id : string) : M (option string) :=
  gets (fun s => states_of k s !! id).

Definition get_workflow_state := get_state KWorkflow.
Definition get_task_state := get_state KTask.

(** ** asyncio.PriorityQueue over CPython's [_heapq] *)

#[global] Instance TaskDefinition_eq_dec : EqDecision TaskDefinition.
Proof. solve_decision. Defined.

(** [a < b] on [(priority, workflow_id, task)] tuples: the first pair of
    components that differ is compared with [<].  Tuple comparison tests
    components for identity before [==]: the very same task object (here an
    identical record) is equal to itself, and two task objects are equal
    when their fields are ([BaseModel.__eq__]); a pydantic model has no
    ordering, so comparing two tasks that are not equal raises
    [TypeError]. *)
Definition item_lt (a b : QItem) : Res bool :=
  let '(pa, wa, ta) := a in
  let '(pb, wb, tb) := b in
  if negb (Z.eqb pa pb) then Ok (Z.ltb pa pb)
  else if negb (String.eqb wa wb) then Ok (String.ltb wa wb)
  else if bool_decide (ta = tb) || task_eqb ta tb then Ok false
  else Exc (mkPyError "TypeError"
    "'<' not supported between instances of 'TaskDefinition' and 'TaskDefinition'").

(** [_heapq.siftdown(heap, startpos, pos)]: swaps the new item with its
    parent while it compares smaller. [fuel] bounds the loop ([pos]
    strictly decreases). *)
Fixpoint siftdown (fuel startpos pos : nat) (h : list QItem) : Res unit * list QItem :=
  match fuel with
  | O => (Ok tt, h)
  | S fuel' =>
      if Nat.leb pos startpos then (Ok tt, h) else
      let parentpos := Nat.div (pos - 1) 2 in
      match h !! pos, h !! parentpos with
      | Some newitem, Some parent =>
          match item_lt newitem parent with
          | Exc e => (Exc e, h)
          | Ok false => (Ok tt, h)
          | Ok true =>
              siftdown fuel' startpos parentpos
                (<[parentpos := newitem]> (<[pos := parent]> h))
          end
      | _, _ => (Ok tt, h)
      end
  end.

(** The first loop of [_heapq.siftup]: move the smaller child up until a
    leaf is reached; returns the leaf position. *)
Fixpoint siftup_loop (fuel endpos pos : nat) (h : list QItem) : Res nat * list QItem :=
  match fuel with
  | O => (Ok pos, h)
  | S fuel' =>
      if negb (Nat.ltb pos (Nat.div endpos 2)) then (Ok pos, h) else
      let childpos := 2 * pos + 1 in
      let cmp :=
        if Nat.ltb (childpos + 1) endpos then
          match h !! childpos, h !! (childpos + 1) with
          | Some a, Some b => item_lt a b
          | _, _ => Ok true
          end
        else Ok true in
      match cmp with
      | Exc e => (Exc e, h)
      | Ok c =>
          let childpos := if c then childpos else childpos + 1 in
          match h !! childpos, h !! pos with
          | Some t1, Some t2 =>
              siftup_loop fuel' endpos childpos (<[pos := t1]> (<[childpos := t2]> h))
          | _, _ => (Ok pos, h)
          end
      end
  end.

(** [_heapq.siftup(heap, pos)] *)
Definition siftup (pos : nat) (h : list QItem) : Res unit * list QItem :=
  match siftup_loop (length h) (length h) pos h with
  | (Exc e, h') => (Exc e, h')
  | (Ok p, h') => siftdown (length h') pos p h'
  end.

(** [heapq.heappush(heap, item)]: append, then sift the new last item down. *)
Definition heappush (h : list QItem) (item : QItem) : Res unit * list QItem :=
  let h' := (h ++ [item])%list in
  siftdown (length h') 0 (length h' - 1) h'.

(** [heapq.heappop(heap)] *)
Definition heappop (h : list QItem) : Res QItem * list QItem :=
  match last h with
  | None => (Exc (mkPyError "IndexError" "index out of range"), h)
  | Some lastelt =>
      let h1 := removelast h in
      match h1 with
      | [] => (Ok lastelt, h1)
      | returnitem :: _ =>
          match siftup 0 (<[0 := lastelt]> h1) with
          | (Exc e, h2) => (Exc e, h2)
          | (Ok _, h2) => (Ok returnitem, h2)
          end
      end
  end.

(** [await self.task_queue.put(item)] on an unbounded queue: [_put] (the
    heap push), then [_unfinished_tasks += 1]. *)
Definition queue_put (item : QItem) : M unit :=
  fun s =>
    match heappush (task_queue s) item with
    | (Exc e, h) => (Exc e, set_task_queue h s)
    | (Ok _, h) =>
        (Ok tt, set_unfinished_tasks (S (unfinished_tasks s)) (set_task_queue h s))
    end.

(** [self.task_queue.get()] once the queue is non-empty ([get] waits while it
    is empty; [exec_step] below only runs on a non-empty queue). *)
Definition queue_get : M QItem :=
  fun s =>
    match heappop (task_queue s) with
    | (r, h) => (r, set_task_queue h s)
    end.

(** [self.task_queue.task_done()] *)
Definition task_done : M unit :=
  fun s =>
    match unfinished_tasks s with
    | O => (Exc (mkPyError "ValueError" "task_done() called too many times"), s)
    | S n => (Ok tt, set_unfinished_tasks n s)
    end.

(** [await self.event_emitter.emit(event)]: the event is appended to the
    emitter's queue (starting its processor task is not modelled). *)
Definition emit (e : Event) : M unit :=
  modify (fun s => set_events ((events s ++ [e])%list) s).

(** ** WorkflowManager (src/core/workflow.py) *)

Definition ValueError (msg : string) : PyError := mkPyError "ValueError" msg.

(** [WorkflowManager.validate_workflow] (the resource totals it computes
    are never used and cannot fail). *)
Definition validate_workflow (workflow_id : string) : M bool :=
  fun s =>
    match workflows s !! workflow_id with
    | None => (Exc (ValueError ("Workflow " ++ workflow_id ++ " not found")), s)
    | Some wf =>
        let task_ids : gset string := list_to_set (map task_id (tasks wf)) in
        (for_each (tasks wf) (fun t =>
           for_each (dependencies t) (fun dep_id =>
             if decide (dep_id ∈ task_ids) then ret tt
             else raise (ValueError ("Task " ++ task_id t ++
                                     " depends on non-existent task " ++ dep_id))))
         ;; ret true) s
    end.

(** [WorkflowManager._queue_task] *)
Definition _queue_task (workflow_id : string) (task : TaskDefinition) (priority : Z) : M unit :=
  queue_put (priority, workflow_id, task) ;;
  modify (fun s => set_queued_tasks (queued_tasks s + 1) s).

(** [WorkflowManager.start_workflow]; the consumer loop spawned with
    [asyncio.create_task] is counted in [consumers] and run by [exec_step]. *)
Definition start_workflow (workflow_id : string) : M unit :=
  fun s =>
    if Nat.leb (max_concurrent_workflows s) (size (active_workflows s))
    then (Exc (mkPyError "RuntimeError" "Maximum concurrent workflows reached"), s)
    else match workflows s !! workflow_id with
    | None => (Exc (ValueError ("Workflow " ++ workflow_id ++ " not found")), s)
    | Some wf =>
        (validate_workflow workflow_id ;;
         set_workflow_state workflow_id "in_progress" ;;
         modify (fun s => set_active_workflows ({[workflow_id]} ∪ active_workflows s) s) ;;
         for_each (filter (fun t => dependencies t = []) (tasks wf))
           (fun t => _queue_task workflow_id t 1) ;;
         modify (fun s => set_consumers (S (consumers s)) s)) s
    end.

(** [dict[key]] on a workflow registry. *)
Definition get_workflow_def (workflow_id : string) : M WorkflowDefinition :=
  fun s => match workflows s !! workflow_id with
           | Some wf => (Ok wf, s)
           | None => (Exc (mkPyError "KeyError" ("'" ++ workflow_id ++ "'")), s)
           end.

(** [self.active_workflows.remove(workflow_id)] *)
Definition remove_active (workflow_id : string) : M unit :=
  fun s => if decide (workflow_id ∈ active_workflows s)
           then (Ok tt, set_active_workflows (active_workflows s ∖ {[workflow_id]}) s)
           else (Exc (mkPyError "KeyError" ("'" ++ workflow_id ++ "'")), s).

(** [{t.task_id for t in workflow.tasks
      if self.state_manager.get_task_state(t.task_id) == TaskStatus.COMPLETED}] *)
Definition completed_tasks_of (wf : WorkflowDefinition) (s : Sys) : gset string :=
  list_to_set (map task_id
    (filter (fun t => st_task s !! task_id t = Some "completed") (tasks wf))).

(** The body of [try:] for one dequeued task: start it, run it (the sleep
    of [estimated_duration] has no other effect), complete it, queue every
    other task of the workflow whose dependencies are all completed, and
    complete the workflow once every task is completed. *)
Definition run_task (workflow_id : string) (task : TaskDefinition) : M unit :=
  set_task_state (task_id task) "in_progress" ;;
  emit (mkEvent "step_started" (Some workflow_id) (Some (task_id task))
          [("task_name", name task); ("agent_pair", agent_pair_id task)]) ;;
  set_task_state (task_id task) "completed" ;;
  emit (mkEvent "step_completed" (Some workflow_id) (Some (task_id task))
          [("status", "completed")]) ;;
  let! wf := get_workflow_def workflow_id in
  let! completed_tasks := gets (completed_tasks_of wf) in
  for_each (tasks wf) (fun next_task =>
    if negb (String.eqb (task_id next_task) (task_id task)) &&
       forallb (fun dep => bool_decide (dep ∈ completed_tasks)) (dependencies next_task)
    then _queue_task workflow_id next_task 1
    else ret tt) ;;
  if decide (completed_tasks = list_to_set (map task_id (tasks wf)))
  then set_workflow_state workflow_id "completed" ;; remove_active workflow_id
  else ret tt.

(** [except Exception as e:] branch for a task. *)
Definition task_failed (workflow_id : string) (task : TaskDefinition) (e : PyError) : M unit :=
  set_task_state (task_id task) "failed" ;;
  emit (mkEvent "step_failed" (Some workflow_id) (Some (task_id task))
          [("error", err_msg e)]).

(** One iteration of the [while True] loop of [WorkflowManager._execute_tasks].
    The outer [except] only prints and sleeps, so every iteration ends
    normally. *)
Definition _execute_tasks_iteration : M unit :=
  try_except
    (let! item := queue_get in
     let '(_, workflow_id, task) := item in
     modify (fun s => set_active_tasks (active_tasks s + 1)
                        (set_queued_tasks (queued_tasks s - 1) s)) ;;
     try_finally
       (try_except (run_task workflow_id task) (task_failed workflow_id task))
       (modify (fun s => set_active_tasks (active_tasks s - 1) s) ;; task_done))
    (fun _ => ret tt).

(** A step of the consumer loop: [None] when the queue is empty (the loop
    waits in [get]). *)
Definition exec_step (s : Sys) : option Sys :=
  match task_queue s with
  | [] => None
  | _ => Some (snd (_execute_tasks_iteration s))
  end.

(** [WorkflowStatus.<NAME>]: class attribute lookup on the enum. *)
Definition enum_attr (k : StateKind) (attr : string) : Res string :=
  let names := ["PENDING"; "IN_PROGRESS";
                match k with KDebate => "CONSENSUS_REACHED" | _ => "COMPLETED" end;
                "FAILED"; "TERMINATED"] in
  match list_find (String.eqb attr) names with
  | Some (i, _) => match members k !! i with Some v => Ok v | None => Ok "" end
  | None => Exc (mkPyError "AttributeError" attr)
  end.

Definition lift_res {A} (r : Res A) : M A := fun s => (r, s).

(** [WorkflowManager.pause_workflow] *)
Definition pause_workflow (workflow_id : string) : M unit :=
  let! act := gets (fun s => bool_decide (workflow_id ∈ active_workflows s)) in
  if negb act then raise (ValueError ("Workflow " ++ workflow_id ++ " not active"))
  else let! paused := lift_res (enum_attr KWorkflow "PAUSED") in
       set_workflow_state workflow_id paused.

(** [WorkflowManager.resume_workflow] *)
Definition resume_workflow (workflow_id : string) : M unit :=
  let! current_state := get_workflow_state workflow_id in
  let! paused := lift_res (enum_attr KWorkflow "PAUSED") in
  if decide (current_state <> Some paused)
  then raise (ValueError ("Workflow " ++ workflow_id ++ " not paused"))
  else let! in_progress := lift_res (enum_attr KWorkflow "IN_PROGRESS") in
       set_workflow_state workflow_id in_progress.

(** ** RecoveryManager (src/core/recovery.py) *)

Inductive RecoveryLevel := RETRY | ROLLBACK | CHECKPOINT | TERMINATE | EMERGENCY.

Inductive ErrorCategory := TRANSIENT | STATE | RESOURCE | VALIDATION | AGENT | SYSTEM | UNKNOWN.

(** [RecoveryAction]; [delay] in whole seconds, [cleanup_func] is never set
    by the manager's table. *)
Record RecoveryAction := mkAction { level : RecoveryLevel; max_retries : Z; delay : Z }.

(** [self.recovery_actions[category]]: the dict built in [__init__]; it has
    no entry for [UNKNOWN]. *)
Definition recovery_actions (c : ErrorCategory) : option RecoveryAction :=
  match c with
  | TRANSIENT => Some (mkAction RETRY 3 1)
  | STATE => Some (mkAction ROLLBACK 1 0)
  | RESOURCE => Some (mkAction CHECKPOINT 2 2)
  | VALIDATION => Some (mkAction TERMINATE 0 0)
  | AGENT => Some (mkAction RETRY 2 1)
  | SYSTEM => Some (mkAction EMERGENCY 0 0)
  | UNKNOWN => None
  end.

(** [category_mapping.get(type(error).__name__, ErrorCategory.UNKNOWN)] *)
Definition category_mapping : list (string * ErrorCategory) :=
  [("ConnectionError", TRANSIENT); ("TimeoutError", TRANSIENT);
   ("StateTransitionError", STATE); ("ResourceError", RESOURCE);
   ("ValidationError", VALIDATION); ("AgentError", AGENT);
   ("SystemError", SYSTEM)].

Definition categorize_error (error : PyError) : ErrorCategory :=
  match list_find (fun p => String.eqb (fst p) (err_type error)) category_mapping with
  | Some (_, (_, c)) => c
  | None => UNKNOWN
  end.

(** The keys of the error context that the manager reads.  A cleanup
    function is represented by the outcome of awaiting it. *)
Record Context := mkContext {
  ctx_error_id : option string;
  ctx_checkpoint_id : option string;
  ctx_cleanup_func : option (option PyError)
}.

(** [SystemState]; [timestamp] is the [isoformat()] of its creation time. *)
Record SystemState := mkSystemState {
  workflow_states : PyVal;
  debate_states : PyVal;
  task_states : PyVal;
  resources : PyVal;
  timestamp : string
}.

(** [SystemState.to_dict] *)
Definition to_dict (st : SystemState) : PyVal :=
  str_dict [("workflow_states", workflow_states st); ("debate_states", debate_states st);
            ("task_states", task_states st); ("resources", resources st);
            ("timestamp", PStr (timestamp st))].

(** [data[key]] on a dict value, for a [str] key. *)
Definition subscript (d : PyVal) (key : string) : Res PyVal :=
  match d with
  | PDict kvs => match list_find (fun p => py_eq (fst p) (PStr key)) kvs with
                 | Some (_, (_, v)) => Ok v
                 | None => Exc (mkPyError "KeyError" ("'" ++ key ++ "'"))
                 end
  | _ => Exc (mkPyError "TypeError" "object is not subscriptable")
  end.

(** [SystemState.from_dict]: the constructor stamps [datetime.now()], [now]. *)
Definition from_dict (now : string) (data : PyVal) : Res SystemState :=
  match subscript data "workflow_states", subscript data "debate_states",
        subscript data "task_states", subscript data "resources" with
  | Ok w, Ok d, Ok t, Ok r => Ok (mkSystemState w d t r now)
  | Exc e, _, _, _ | Ok _, Exc e, _, _ | Ok _, Ok _, Exc e, _
  | Ok _, Ok _, Ok _, Exc e => Exc e
  end.

(** [type(v).__name__] *)
Definition type_name (v : PyVal) : string :=
  match v with
  | PNone => "NoneType" | PBool _ => "bool" | PInt _ => "int" | PFloat _ => "float"
  | PStr _ => "str" | PStrEnum c _ => c | PList _ => "list" | PTuple _ => "tuple"
  | PDict _ => "dict" | PObj c _ => c
  end.

(** [json.dump(obj, f)] encodes with the pure-Python [_make_iterencode]
    (the C encoder is only used by [dumps]-style one-shot encoding).
    [float_repr] is [float.__repr__], the shortest decimal text that reads
    back to the float: it is left abstract, and is only seen in dict keys,
    since a float value is written as text that reads back to itself. *)
Section Encoder.
Variable float_repr : spec_float -> string.

(** [_floatstr] with [allow_nan=True] *)
Definition float_str (f : spec_float) : string :=
  match f with
  | S754_nan => "NaN"
  | S754_infinity false => "Infinity"
  | S754_infinity true => "-Infinity"
  | _ => float_repr f
  end.

(** The key conversion of [_iterencode_dict]: a [str] (or [str]-enum
    member) is kept, a float, bool, [None] or int becomes its JSON text,
    any other key is refused. *)
Definition key_str (k : PyVal) : Res string :=
  match k with
  | PStr s | PStrEnum _ s => Ok s
  | PFloat f => Ok (float_str f)
  | PBool true => Ok "true"
  | PBool false => Ok "false"
  | PNone => Ok "null"
  | PInt z => Ok (NilZero.string_of_int (Z.to_int z))
  | _ => Exc (mkPyError "TypeError"
                ("keys must be str, int, float, bool or None, not " ++ type_name k))
  end.

(** [json.dump] as the JSON tree it writes: a [str]-enum member is written
    as its value, lists and tuples become arrays, floats are written
    whatever their value ([allow_nan=True]), and an object of any other
    class is refused by [default]; items are encoded in order, each key
    before its value. *)
Fixpoint json_dump (v : PyVal) : Res Json :=
  let fix dump_list (l : list PyVal) : Res (list Json) :=
    match l with
    | [] => Ok []
    | x :: l' => match json_dump x, dump_list l' with
                 | Ok j, Ok js => Ok (j :: js)
                 | Exc e, _ | Ok _, Exc e => Exc e
                 end
    end in
  let fix dump_dict (d : list (PyVal * PyVal)) : Res (list (string * Json)) :=
    match d with
    | [] => Ok []
    | (k, x) :: d' => match key_str k with
                      | Exc e => Exc e
                      | Ok ks => match json_dump x, dump_dict d' with
                                 | Ok j, Ok js => Ok ((ks, j) :: js)
                                 | Exc e, _ | Ok _, Exc e => Exc e
                                 end
                      end
    end in
  match v with
  | PNone => Ok JNull
  | PBool b => Ok (JBool b)
  | PInt z => Ok (JInt z)
  | PFloat f => Ok (JFloat f)
  | PStr s | PStrEnum _ s => Ok (JStr s)
  | PList l | PTuple l => match dump_list l with Ok js => Ok (JArr js) | Exc e => Exc e end
  | PDict d => match dump_dict d with Ok o => Ok (JObj o) | Exc e => Exc e end
  | PObj c _ => Exc (mkPyError "TypeError" ("Object of type " ++ c ++ " is not JSON serializable"))
  end.

End Encoder.

(** [dict(pairs)]: a repeated key keeps its first position and last value. *)
Fixpoint dict_set (d : list (string * PyVal)) (k : string) (v : PyVal) : list (string * PyVal) :=
  match d with
  | [] => [(k, v)]
  | (k', v') :: d' => if String.eqb k k' then (k, v) :: d' else (k', v') :: dict_set d' k v
  end.

(** [json.load] of the written tree: arrays become lists, objects dicts
    with [str] keys. *)
Fixpoint json_load (j : Json) : PyVal :=
  match j with
  | JNull => PNone
  | JBool b => PBool b
  | JInt z => PInt z
  | JFloat f => PFloat f
  | JStr s => PStr s
  | JArr l => PList (map json_load l)
  | JObj o => str_dict (foldl (fun d kv => dict_set d (fst kv) (json_load (snd kv))) [] o)
  end.

(** [RecoveryManager.create_checkpoint]: [fresh] is the [uuid4()] string
    drawn by this call; the file [<id>.json] receives the JSON text (a
    failing [json.dump] leaves a truncated, unparsable file);
    [float_repr] is [float.__repr__], as for [json_dump]. *)
Definition create_checkpoint (float_repr : spec_float -> string) (fresh : string)
    (state : SystemState)
    (checkpoint_id : option string) : M string :=
  fun s =>
    let cid := match checkpoint_id with
               | Some c => if String.eqb c "" then fresh else c
               | None => fresh
               end in
    match json_dump float_repr (to_dict state) with
    | Ok j => (Ok cid, set_checkpoint_files (<[cid := Some j]> (checkpoint_files s)) s)
    | Exc e => (Exc e, set_checkpoint_files (<[cid := None]> (checkpoint_files s)) s)
    end.

(** [RecoveryManager.restore_checkpoint] *)
Definition restore_checkpoint (now : string) (context : Context) : M SystemState :=
  fun s =>
    match ctx_checkpoint_id context with
    | None => (Exc (ValueError "No checkpoint ID provided"), s)
    | Some cid =>
        if String.eqb cid "" then (Exc (ValueError "No checkpoint ID provided"), s)
        else match checkpoint_files s !! cid with
             | None => (Exc (mkPyError "FileNotFoundError"
                               ("No such file or directory: '" ++ cid ++ ".json'")), s)
             | Some None => (Exc (mkPyError "JSONDecodeError" "Expecting value"), s)
             | Some (Some j) => (from_dict now (json_load j), s)
             end
    end.

(** [terminate_gracefully] / [emergency_shutdown]: await the cleanup
    function of the context, if any. *)
Definition run_cleanup (context : Context) : M unit :=
  match ctx_cleanup_func context with
  | None | Some None => ret tt
  | Some (Some e) => raise e
  end.

(** [RecoveryManager.execute_recovery]: [RETRY] only sleeps, [ROLLBACK] only
    logs; [now] stamps a restored state. *)
Definition execute_recovery (now : string) (action : RecoveryAction) (context : Context) : M unit :=
  match level action with
  | RETRY => ret tt
  | ROLLBACK => ret tt
  | CHECKPOINT => restore_checkpoint now context ;; ret tt
  | TERMINATE => run_cleanup context
  | EMERGENCY => run_cleanup context
  end.

(** [RecoveryManager.handle_error]: [fresh] is the [str(uuid.uuid4())]
    default of [context.get("error_id", ...)]. *)
Definition handle_error (fresh now : string) (error : PyError) (context : Context) : M unit :=
  let category := categorize_error error in
  match recovery_actions category with
  | None => raise (mkPyError "KeyError" "<ErrorCategory.UNKNOWN: 'unknown'>")
  | Some action =>
      let error_id := default fresh (ctx_error_id context) in
      let! attempts := gets (fun s => default 0%Z (recovery_attempts s !! error_id)) in
      if Z.leb (max_retries action) attempts then raise error
      else modify (fun s => set_recovery_attempts
                              (<[error_id := (attempts + 1)%Z]> (recovery_attempts s)) s) ;;
           execute_recovery now action context
  end.

(** ** Reference notions used to state the claims *)







(** Task [a] lists task [b] of the same definition as a dependency. *)
Definition depends_on (wf : WorkflowDefinition) (a b : string) : Prop :=
  exists t, t ∈ tasks wf /\ task_id t = a /\ b ∈ dependencies t.

(** A cycle of the dependency graph: a task that transitively depends on
    itself. *)
Definition has_dependency_cycle (wf : WorkflowDefinition) : Prop :=
  exists a, Relation_Operators.clos_trans string (depends_on wf) a a.

(** Every dependency id names a task of the same definition. *)
Definition deps_closed (wf : WorkflowDefinition) : Prop :=
  forall t d, t ∈ tasks wf -> d ∈ dependencies t -> d ∈ map task_id (tasks wf).

(** ** Sample inputs *)

Definition empty_sys : Sys := mkSys ∅ ∅ ∅ [] ∅ ∅ 5 [] 0 0 0 0 ∅ ∅.

(** The chain [A <- B] of the sequential-workflow test. *)
Definition task_A : TaskDefinition := mkTask "A" "Task 1" "First task" "pair1" [] None [] [].
Definition task_B : TaskDefinition := mkTask "B" "Task 2" "Second task" "pair1" ["A"] None [] [].
Definition chain_wf : WorkflowDefinition := mkWorkflow "w" "Sequential Workflow" "" [task_A; task_B] 1.
Definition chain_sys : Sys := set_workflows (<["w" := chain_wf]> ∅) empty_sys.

(** Two tasks that depend on each other. *)
Definition cyc_X : TaskDefinition := mkTask "X" "Task X" "" "pair1" ["Y"] None [] [].
Definition cyc_Y : TaskDefinition := mkTask "Y" "Task Y" "" "pair1" ["X"] None [] [].
Definition cyclic_wf : WorkflowDefinition := mkWorkflow "c" "Cyclic" "" [cyc_X; cyc_Y] 1.
Definition cyclic_sys : Sys := set_workflows (<["c" := cyclic_wf]> ∅) empty_sys.

(** A task already marked completed. *)
Definition tracked_sys : Sys := set_st_task (<["t" := "completed"]> ∅) empty_sys.

(** A [float.__repr__] for the samples, none of which has a float key. *)
Definition sample_float_repr (f : spec_float) : string :=
  match f with S754_zero true => "-0.0" | S754_zero false => "0.0" | _ => "1.0" end.







(** Two events of a step, for the emitter runs. *)
Definition ev_started : Event := mkEvent "step_started" (Some "w") (Some "A") [].
Definition ev_completed : Event := mkEvent "step_completed" (Some "w") (Some "A") [].

(** Runs [n] iterations of the consumer loop (stops when the queue is empty). *)
Fixpoint run_loop (n : nat) (s : Sys) : Sys :=
  match n with
  | O => s
  | S n' => match exec_step s with Some s' => run_loop n' s' | None => s end
  end.

(** The list and dict loops of [json_dump] and [json_native], named. *)
Definition dump_list (fr : spec_float -> string) : list PyVal -> Res (list Json) :=
  fix dump_list (l : list PyVal) : Res (list Json) :=
    match l with
    | [] => Ok []
    | x :: l' => match json_dump fr x, dump_list l' with
                 | Ok j, Ok js => Ok (j :: js)
                 | Exc e, _ | Ok _, Exc e => Exc e
                 end
    end.

Definition dump_dict (fr : spec_float -> string) :
    list (PyVal * PyVal) -> Res (list (string * Json)) :=
  fix dump_dict (d : list (PyVal * PyVal)) : Res (list (string * Json)) :=
    match d with
    | [] => Ok []
    | (k, x) :: d' => match key_str fr k with
                      | Exc e => Exc e
                      | Ok ks => match json_dump fr x, dump_dict d' with
                                 | Ok j, Ok js => Ok ((ks, j) :: js)
                                 | Exc e, _ | Ok _, Exc e => Exc e
                                 end
                      end
    end.



(** The list and dict loops of [py_eq] and [unencodable], named. *)
Definition eq_list : list PyVal -> list PyVal -> bool :=
  fix eq_list (l1 l2 : list PyVal) : bool :=
    match l1, l2 with
    | [], [] => true
    | x :: l1', y :: l2' => py_eq x y && eq_list l1' l2'
    | _, _ => false
    end.





(** ** Further parts of the modelled files *)

(** [StateManager.clear_states]: the three maps are replaced by empty ones. *)
Definition clear_states : M unit :=
  modify (fun s => set_st_task ∅ (set_st_debate ∅ (set_st_workflow ∅ s))).

(** [WorkflowManager.cancel_workflow]: [WorkflowStatus.CANCELLED] is an
    attribute lookup on the enum, done before the state manager is called. *)
Definition cancel_workflow (workflow_id : string) : M unit :=
  let! known := gets (fun s => bool_decide (is_Some (workflows s !! workflow_id))) in
  if negb known then raise (ValueError ("Workflow " ++ workflow_id ++ " not found"))
  else let! cancelled := lift_res (enum_attr KWorkflow "CANCELLED") in
       set_workflow_state workflow_id cancelled ;;
       let! act := gets (fun s => bool_decide (workflow_id ∈ active_workflows s)) in
       if act then remove_active workflow_id else ret tt.

(** [with_recovery(error_context)(func)] applied to one call of [func]:
    [has_manager] says whether [args[0].recovery_manager] is set.  Only the
    keys of [error_context] are read by the manager ([function], [args] and
    [kwargs] are not), so the context is [error_context]. *)
Definition with_recovery {A} (fresh now : string) (error_context : Context)
    (has_manager : bool) (func : M A) : M A :=
  if negb has_manager then raise (ValueError "No recovery manager available")
  else try_except func (fun e => handle_error fresh now e error_context ;; raise e).

(** The handler registry and queue of an [EventEmitter] (src/core/events.py).
    A handler is named by an identifier ([h != handler] compares the
    function objects); [handlers] is the [defaultdict(list)]: a key exists
    once it has been read or written. *)
Record Emitter := mkEmitter {
  handlers : gmap string (list nat);
  event_queue : list Event;
  processing : bool
}.

(** [EventEmitter.add_handler] *)
Definition add_handler (event_type : string) (handler : nat) (em : Emitter) : Emitter :=
  mkEmitter (<[event_type := (default [] (handlers em !! event_type) ++ [handler])%list]>
               (handlers em))
            (event_queue em) (processing em).

(** [EventEmitter.remove_handler] *)
Definition remove_handler (event_type : string) (handler : nat) (em : Emitter) : Emitter :=
  match handlers em !! event_type with
  | Some hs => mkEmitter (<[event_type := filter (fun h => h <> handler) hs]> (handlers em))
                         (event_queue em) (processing em)
  | None => em
  end.

(** [EventEmitter.emit]: the event is queued, then [start_processing] sets
    [_processing] (the processor task it creates runs [process_step]). *)
Definition emitter_emit (e : Event) (em : Emitter) : Emitter :=
  mkEmitter (handlers em) ((event_queue em ++ [e])%list) true.

(** [EventEmitter.stop_processing]: clears [_processing] (the running loop
    ends at its next test). *)
Definition stop_processing (em : Emitter) : Emitter :=
  mkEmitter (handlers em) (event_queue em) false.

(** What other coroutines, the handlers among them while [gather] awaits
    them, may do to the emitter. *)
Inductive EmOp : Type :=
| OEmit (e : Event)
| OAdd (event_type : string) (handler : nat)
| ORemove (event_type : string) (handler : nat)
| OStop.

Definition apply_op (o : EmOp) (em : Emitter) : Emitter :=
  match o with
  | OEmit e => emitter_emit e em
  | OAdd t h => add_handler t h em
  | ORemove t h => remove_handler t h em
  | OStop => stop_processing em
  end.

(** A step of the emitter: an operation [LOp o], or one iteration of the
    loop of [EventEmitter._process_events] that gets the first queued event
    [e] and reads [self.handlers[event.event_type]] then, which creates the
    key; [gather] starts [handler(event)] for each [h] of that list [hs]
    (the star unpacks the generator at once, so later changes to the
    registry do not change the calls); with [return_exceptions=True] a
    raising handler stops neither the other handlers nor the loop.  The
    handlers run in later steps, as the operations they perform.  A
    [wait_for] that times out on an empty queue changes nothing. *)
Inductive EmLabel : Type :=
| LOp (o : EmOp)
| LDeliver (e : Event) (hs : list nat).

Inductive em_step : Emitter -> EmLabel -> Emitter -> Prop :=
| em_op (o : EmOp) (em : Emitter) : em_step em (LOp o) (apply_op o em)
| em_deliver (em : Emitter) (e : Event) (q : list Event) (hs : list nat) :
    processing em = true -> event_queue em = e :: q ->
    default [] (handlers em !! ev_type e) = hs ->
    em_step em (LDeliver e hs) (mkEmitter (<[ev_type e := hs]> (handlers em)) q true).

(** Runs of the emitter: sequences of steps. *)
Inductive em_steps : Emitter -> list EmLabel -> Emitter -> Prop :=
| em_refl (em : Emitter) : em_steps em [] em
| em_cons (em em1 em2 : Emitter) (l : EmLabel) (ls : list EmLabel) :
    em_step em l em1 -> em_steps em1 ls em2 -> em_steps em (l :: ls) em2.

(** The events emitted, and the events dequeued for delivery, along a run. *)
Definition emitted (ls : list EmLabel) : list Event :=
  flat_map (fun l => match l with LOp (OEmit e) => [e] | _ => [] end) ls.

Definition delivered (ls : list EmLabel) : list Event :=
  flat_map (fun l => match l with LDeliver e _ => [e] | _ => [] end) ls.

(** Rank of a status along the transition tables: [pending] 0,
    [in_progress] 1, [terminated] 3, the other statuses 2. *)
Definition status_rank (v : string) : nat :=
  if String.eqb v "pending" then 0
  else if String.eqb v "in_progress" then 1
  else if String.eqb v "terminated" then 3
  else 2.

(** Every status recorded for kind [k] is a member of its enum. *)
Definition valid_states (k : StateKind) (s : Sys) : Prop :=
  forall id v, states_of k s !! id = Some v -> v ∈ members k.

(** A computation that leaves [resource_usage.active_tasks] as it found it. *)
Definition keeps_active {A} (m : M A) : Prop :=
  forall s, active_tasks (snd (m s)) = active_tasks s.

(** The exception a heap comparison of two different tasks raises. *)
Definition TaskTypeError : PyError :=
  mkPyError "TypeError"
    "'<' not supported between instances of 'TaskDefinition' and 'TaskDefinition'".

(** Two tasks without dependencies, as in the parallel-workflow test. *)
Definition task_C : TaskDefinition := mkTask "C" "Task 3" "Third task" "pair2" [] None [] [].
Definition par_wf : WorkflowDefinition := mkWorkflow "p" "Parallel Workflow" "" [task_A; task_C] 1.
Definition par_sys : Sys := set_workflows (<["p" := par_wf]> ∅) empty_sys.

(** A workflow of the single task [A]. *)
Definition single_wf : WorkflowDefinition := mkWorkflow "s" "Single Workflow" "" [task_A] 1.
Definition single_sys : Sys := set_workflows (<["s" := single_wf]> ∅) empty_sys.

(** A definition whose only task depends on a task it does not contain. *)
Definition dangling_wf : WorkflowDefinition := mkWorkflow "d" "Dangling" "" [task_B] 1.
Definition dangling_sys : Sys := set_workflows (<["d" := dangling_wf]> ∅) empty_sys.

(** * Theorems *)

(** ** StateManager *)

Lemma enum_call_member (k : StateKind) (v : string) :
  v ∈ members k -> enum_call k v = Ok v.
Proof. intros H. unfold enum_call. by rewrite decide_True. Qed.

(** The exception value raised on a rejected edge. *)
Lemma validate_transition_missing_edge (k : StateKind) (A B : string) :
  A ∈ members k -> B ∈ members k -> A <> B -> B ∉ VALID_TRANSITIONS k A ->
  _validate_transition A B k = Exc (StateTransitionError A B).
Proof.
  intros HA HB Hne Hedge. unfold _validate_transition.
  destruct (String.eqb_spec A B) as [->|_]; [contradiction|].
  rewrite (enum_call_member k A HA), (enum_call_member k B HB).
  by rewrite decide_False.
Qed.

(** C1: for every kind and every pair [(A, B)] of statuses of that kind
    with [B <> A] and no edge [A -> B] in [VALID_TRANSITIONS], setting the
    status of an entity whose current status is [A] (an untracked entity
    counts as [pending]) to [B] raises [StateTransitionError] and leaves the
    whole system state, in particular the three maps, unchanged. *)
Theorem set_state_rejects_missing_edge (k : StateKind) (id A B : string) (s : Sys) :
  A ∈ members k -> B ∈ members k -> A <> B -> B ∉ VALID_TRANSITIONS k A ->
  default "pending" (states_of k s !! id) = A ->
  set_state k id B s = (Exc (StateTransitionError A B), s).
Proof.
  intros HA HB Hne Hedge Hcur. unfold set_state. rewrite Hcur.
  by rewrite (validate_transition_missing_edge k A B HA HB Hne Hedge).
Qed.

Lemma set_state_rejects_missing_edge_witness :
  set_state KTask "t" "in_progress"
    (set_st_task (<["t" := "completed"]> ∅) empty_sys)
  = (Exc (StateTransitionError "completed" "in_progress"),
     set_st_task (<["t" := "completed"]> ∅) empty_sys).
Proof.
  apply (set_state_rejects_missing_edge KTask "t" "completed" "in_progress"); vm_compute.
  - by repeat constructor.
  - by repeat constructor.
  - discriminate.
  - intros H. repeat (inversion H as [|? ? ? H']; subst; clear H; rename H' into H).
  - reflexivity.
Defined.

(** An accepted transition only writes the map entry: the event emitter's
    queue is untouched. *)
Lemma set_state_accepted (k : StateKind) (id status : string) (s s' : Sys) :
  set_state k id status s = (Ok tt, s') ->
  s' = set_states_of k (<[id := status]> (states_of k s)) s /\ events s' = events s.
Proof.
  unfold set_state.
  destruct (_validate_transition _ status k); intros [= <-].
  split; [reflexivity|]. by destruct k.
Qed.

(** C2 (code_bug): the transition [pending -> in_progress] of workflow
    ["test_workflow"] (the first accepted transition of the test
    [test_state_events]) is accepted and written to the map, yet no event
    is put on the event emitter: its queue stays empty. *)
Theorem set_state_accepted_emits_nothing :
  exists s', set_workflow_state "test_workflow" "in_progress" empty_sys = (Ok tt, s') /\
             st_workflow s' !! "test_workflow" = Some "in_progress" /\
             events s' = [].
Proof. eexists. split; [reflexivity|]. split; reflexivity. Qed.

(** C9: requesting the status an entity already holds (for an untracked
    entity, the default [pending]) never raises, emits no event, and leaves
    its status as it was; when the entity is tracked, the system state is
    left exactly as it was. *)
Theorem set_state_same_status_noop (k : StateKind) (id status : string) (s : Sys) :
  default "pending" (states_of k s !! id) = status ->
  exists s', set_state k id status s = (Ok tt, s') /\
             events s' = events s /\
             default "pending" (states_of k s' !! id) = status /\
             (states_of k s !! id = Some status -> s' = s).
Proof.
  intros Hcur. unfold set_state. rewrite Hcur. unfold _validate_transition.
  rewrite String.eqb_refl.
  eexists. split; [reflexivity|]. split; [by destruct k|]. split.
  - destruct k; simpl; by rewrite lookup_insert_eq.
  - intros Hs. rewrite insert_id by exact Hs.
    destruct k, s; reflexivity.
Qed.

Lemma set_state_same_status_noop_witness :
  exists s', set_state KTask "t" "completed" tracked_sys = (Ok tt, s') /\
             events s' = events tracked_sys /\
             default "pending" (states_of KTask s' !! "t") = "completed" /\
             s' = tracked_sys.
Proof.
  destruct (set_state_same_status_noop KTask "t" "completed" tracked_sys ltac:(reflexivity))
    as (s' & Hs & Hev & Hst & Hsame).
  exists s'. split; [exact Hs|]. split; [exact Hev|]. split; [exact Hst|].
  exact (Hsame ltac:(reflexivity)).
Defined.

(** ** WorkflowManager *)

(** C3 (code_bug): in the two-task chain [A <- B] (B depends on A), after
    [start_workflow] and two iterations of the consumer loop (A runs, then
    B runs), task A is completed and yet sits in the ready queue again:
    the completion of B re-queued every other task whose dependencies are
    all completed, including the already completed A. *)
Theorem completed_task_requeued :
  let s := run_loop 2 (snd (start_workflow "w" chain_sys)) in
  st_task s !! "A" = Some "completed" /\
  st_task s !! "B" = Some "completed" /\
  (1%Z, "w", task_A) ∈ task_queue s.
Proof. vm_compute. split; [reflexivity|]. split; [reflexivity|]. by constructor. Qed.

(** The loop then pops A again: the transition [completed -> in_progress]
    is refused, so is [completed -> failed], and A stays completed. *)
Lemma requeued_task_rejected :
  let s := run_loop 3 (snd (start_workflow "w" chain_sys)) in
  st_task s !! "A" = Some "completed" /\ task_queue s = [] /\
  length (events s) = 4%nat.
Proof. vm_compute. auto. Qed.

(** Results of a [for] loop whose body does not touch the state. *)
Fixpoint res_all {A} (f : A -> Res unit) (l : list A) : Res unit :=
  match l with
  | [] => Ok tt
  | x :: l' => match f x with Ok _ => res_all f l' | Exc e => Exc e end
  end.

Lemma for_each_pure {A} (l : list A) (body : A -> M unit) (f : A -> Res unit) :
  (forall x s, x ∈ l -> body x s = (f x, s)) ->
  forall s, for_each l body s = (res_all f l, s).
Proof.
  induction l as [|x l IH]; intros Hb s; [reflexivity|].
  simpl. unfold bind. rewrite (Hb x s) by constructor.
  destruct (f x) as [[]|e]; [|reflexivity].
  apply IH. intros y s' Hy. apply Hb. by constructor.
Qed.

Lemma res_all_ok {A} (f : A -> Res unit) (l : list A) :
  res_all f l = Ok tt <-> forall x, x ∈ l -> f x = Ok tt.
Proof.
  induction l as [|x l IH]; simpl.
  - split; [intros _ y Hy; inversion Hy | reflexivity].
  - destruct (f x) as [[]|e] eqn:Hf.
    + rewrite IH. split.
      * intros H y Hy. inversion Hy; subst; auto.
      * intros H y Hy. apply H. by constructor.
    + split; [discriminate|]. intros H. rewrite H in Hf; [discriminate|constructor].
Qed.

Lemma res_all_exc {A} (f : A -> Res unit) (l : list A) :
  res_all f l = Ok tt \/ exists x, x ∈ l /\ res_all f l = f x /\ exists e, f x = Exc e.
Proof.
  induction l as [|x l IH]; simpl; [by left|].
  destruct (f x) as [[]|e] eqn:Hf.
  - destruct IH as [IH|(y & Hy & Heq & He)]; [by left|].
    right. exists y. split; [by constructor|]. auto.
  - right. exists x. split; [constructor|]. rewrite Hf. eauto.
Qed.

(** [validate_workflow] rejects a definition exactly when some dependency id
    names no task of the same definition, with a [ValueError]. *)
Lemma validate_workflow_references (wid : string) (s : Sys) (wf : WorkflowDefinition) :
  workflows s !! wid = Some wf ->
  (deps_closed wf -> validate_workflow wid s = (Ok true, s)) /\
  (~ deps_closed wf -> exists msg, validate_workflow wid s = (Exc (ValueError msg), s)).
Proof.
  intros Hwf. unfold validate_workflow. rewrite Hwf.
  set (ids := list_to_set (map task_id (tasks wf)) : gset string).
  set (g := fun t dep_id => if decide (dep_id ∈ ids) then Ok tt
            else Exc (ValueError ("Task " ++ task_id t ++ " depends on non-existent task " ++ dep_id)) : Res unit).
  set (f := fun t => res_all (g t) (dependencies t)).
  unfold bind.
  rewrite (for_each_pure _ _ f).
  2:{ intros t s' _. apply for_each_pure. intros d s'' _. unfold g.
      destruct (decide _); reflexivity. }
  split.
  - intros Hcl. replace (res_all f (tasks wf)) with (Ok tt : Res unit); [reflexivity|].
    symmetry. apply res_all_ok. intros t Ht. apply res_all_ok. intros d Hd.
    unfold g. rewrite decide_True; [reflexivity|].
    unfold ids. rewrite elem_of_list_to_set. by apply (Hcl t d).
  - intros Hncl. destruct (res_all_exc f (tasks wf)) as [Hok|(t & Ht & -> & e & He)].
    + exfalso. apply Hncl. intros t d Ht Hd.
      pose proof (proj1 (res_all_ok f _) Hok t Ht) as Hft.
      pose proof (proj1 (res_all_ok (g t) _) Hft d Hd) as Hg.
      unfold g in Hg. destruct (decide (d ∈ ids)) as [Hin|]; [|discriminate].
      unfold ids in Hin. by rewrite elem_of_list_to_set in Hin.
    + rewrite He. unfold f in He.
      destruct (res_all_exc (g t) (dependencies t)) as [Hok|(d & Hd & Heq & e' & Hg)];
        [rewrite Hok in He; discriminate|].
      rewrite Heq, Hg in He. injection He as <-. unfold g in Hg.
      destruct (decide _); [discriminate|]. injection Hg as <-. eauto.
Qed.

(** C4 (code_bug): the definition where X depends on Y and Y depends on X
    has a dependency cycle (all its references are internal), yet
    [validate_workflow] accepts it, and [start_workflow] starts it with an
    empty ready queue: the workflow stays [in_progress] with nothing to run. *)
Theorem validate_accepts_cycle :
  has_dependency_cycle cyclic_wf /\ deps_closed cyclic_wf /\
  validate_workflow "c" cyclic_sys = (Ok true, cyclic_sys) /\
  exists s', start_workflow "c" cyclic_sys = (Ok tt, s') /\
             st_workflow s' !! "c" = Some "in_progress" /\ task_queue s' = [].
Proof.
  split; [|split; [|split]].
  - exists "X". apply Relation_Operators.t_trans with "Y".
    + apply Relation_Operators.t_step. exists cyc_X. split; [by constructor|].
      split; [reflexivity|by constructor].
    + apply Relation_Operators.t_step. exists cyc_Y.
      split; [by do 2 constructor|]. split; [reflexivity|by constructor].
  - intros t d Ht Hd. simpl in Ht.
    repeat match goal with
           | H : _ ∈ _ :: _ |- _ => apply elem_of_cons in H as [->|H]
           | H : _ ∈ [] |- _ => by apply elem_of_nil in H
           end; simpl in Hd; apply elem_of_cons in Hd as [->|Hd];
      try (by apply elem_of_nil in Hd); simpl; by repeat constructor.
  - reflexivity.
  - eexists. split; [reflexivity|]. split; reflexivity.
Qed.

(** C7 (code_bug): [WorkflowStatus] has no [PAUSED] member, so
    [pause_workflow] raises [AttributeError] on every active workflow (and
    [ValueError] on the others), and [resume_workflow] always raises
    [AttributeError]: neither ever succeeds. *)
Theorem pause_resume_always_raise (wid : string) (s : Sys) :
  pause_workflow wid s =
    (Exc (if bool_decide (wid ∈ active_workflows s)
          then mkPyError "AttributeError" "PAUSED"
          else ValueError ("Workflow " ++ wid ++ " not active")), s) /\
  resume_workflow wid s = (Exc (mkPyError "AttributeError" "PAUSED"), s).
Proof.
  split; [|reflexivity].
  unfold pause_workflow, bind, gets. simpl.
  by case_bool_decide.
Qed.

(** The same on the workflow of the control test right after it started. *)
Lemma pause_started_workflow :
  exists s', start_workflow "w" chain_sys = (Ok tt, s') /\
             st_workflow s' !! "w" = Some "in_progress" /\
             "w" ∈ active_workflows s' /\
             pause_workflow "w" s' = (Exc (mkPyError "AttributeError" "PAUSED"), s').
Proof.
  eexists. split; [reflexivity|]. split; [reflexivity|]. split.
  - vm_compute. set_solver.
  - reflexivity.
Qed.

(** ** RecoveryManager *)

(** One [handle_error] call on a transient error with a fixed [error_id]:
    re-raise once [3] attempts are recorded, otherwise record one more. *)
Lemma handle_error_transient (fresh now eid : string) (err : PyError) (ctx : Context) (s : Sys) :
  categorize_error err = TRANSIENT -> ctx_error_id ctx = Some eid ->
  handle_error fresh now err ctx s =
    (let a := default 0%Z (recovery_attempts s !! eid) in
     if Z.leb 3 a then (Exc err, s)
     else (Ok tt, set_recovery_attempts (<[eid := (a + 1)%Z]> (recovery_attempts s)) s)).
Proof.
  intros Hcat Hid. unfold handle_error. rewrite Hcat, Hid. simpl.
  unfold bind, gets, modify, raise. simpl.
  destruct (Z.leb 3 _); reflexivity.
Qed.

(** C5: with a fixed [error_id] not yet recorded, a transient error
    ([max_retries = 3]) is handled without raising on the first three calls,
    each recording one more attempt (1, 2, 3), and the fourth call re-raises
    the original error, leaving the state as it was. *)
Theorem transient_retry_budget (u1 u2 u3 u4 now eid : string) (err : PyError)
    (ctx : Context) (s : Sys) :
  categorize_error err = TRANSIENT -> ctx_error_id ctx = Some eid ->
  recovery_attempts s !! eid = None ->
  exists s1 s2 s3,
    handle_error u1 now err ctx s = (Ok tt, s1) /\ recovery_attempts s1 !! eid = Some 1%Z /\
    handle_error u2 now err ctx s1 = (Ok tt, s2) /\ recovery_attempts s2 !! eid = Some 2%Z /\
    handle_error u3 now err ctx s2 = (Ok tt, s3) /\ recovery_attempts s3 !! eid = Some 3%Z /\
    handle_error u4 now err ctx s3 = (Exc err, s3).
Proof.
  intros Hcat Hid Hnone.
  pose (step := fun (n : Z) (s' : Sys) =>
                  set_recovery_attempts (<[eid := n]> (recovery_attempts s')) s').
  exists (step 1%Z s), (step 2%Z (step 1%Z s)), (step 3%Z (step 2%Z (step 1%Z s))).
  rewrite !(handle_error_transient _ _ eid err ctx _ Hcat Hid).
  unfold step; simpl. rewrite Hnone, !lookup_insert_eq. simpl.
  repeat split.
Qed.

Lemma transient_retry_budget_witness :
  exists s1 s2 s3,
    handle_error "u1" "now" (mkPyError "ConnectionError" "Test connection error")
      (mkContext (Some "test_error") None None) empty_sys = (Ok tt, s1) /\
    recovery_attempts s1 !! "test_error" = Some 1%Z /\
    handle_error "u2" "now" (mkPyError "ConnectionError" "Test connection error")
      (mkContext (Some "test_error") None None) s1 = (Ok tt, s2) /\
    recovery_attempts s2 !! "test_error" = Some 2%Z /\
    handle_error "u3" "now" (mkPyError "ConnectionError" "Test connection error")
      (mkContext (Some "test_error") None None) s2 = (Ok tt, s3) /\
    recovery_attempts s3 !! "test_error" = Some 3%Z /\
    handle_error "u4" "now" (mkPyError "ConnectionError" "Test connection error")
      (mkContext (Some "test_error") None None) s3 =
      (Exc (mkPyError "ConnectionError" "Test connection error"), s3).
Proof. apply transient_retry_budget; reflexivity. Defined.

Lemma categorize_error_unmapped (err : PyError) :
  err_type err ∉ map fst category_mapping -> categorize_error err = UNKNOWN.
Proof.
  intros H. unfold categorize_error.
  rewrite (proj2 (list_find_None _ _)); [reflexivity|].
  apply Forall_forall. intros [c k] Hin Heq. apply H.
  apply Is_true_true_1, String.eqb_eq in Heq. simpl in Heq. subst c.
  change (err_type err) with (fst (err_type err, k)).
  by apply (list_elem_of_fmap_2 fst).
Qed.

(** C6 (code_bug): an error whose class name is not in the mapping is
    categorized [UNKNOWN]; but [recovery_actions] has no [UNKNOWN] entry, so
    [handle_error] raises a [KeyError] instead of re-raising the original
    error (and records no attempt). *)
Theorem handle_error_unknown_raises_KeyError (fresh now : string) (err : PyError)
    (ctx : Context) (s : Sys) :
  err_type err ∉ map fst category_mapping ->
  categorize_error err = UNKNOWN /\
  handle_error fresh now err ctx s =
    (Exc (mkPyError "KeyError" "<ErrorCategory.UNKNOWN: 'unknown'>"), s).
Proof.
  intros H. pose proof (categorize_error_unmapped err H) as Hc.
  split; [exact Hc|]. unfold handle_error. by rewrite Hc.
Qed.

(** The error and context of the test [test_logging]. *)
Lemma handle_error_unknown_raises_KeyError_witness :
  categorize_error (mkPyError "MockError" "Test error") = UNKNOWN /\
  handle_error "u" "now" (mkPyError "MockError" "Test error") (mkContext None None None) empty_sys =
    (Exc (mkPyError "KeyError" "<ErrorCategory.UNKNOWN: 'unknown'>"), empty_sys).
Proof.
  apply handle_error_unknown_raises_KeyError. simpl.
  intros Hin. repeat (apply elem_of_cons in Hin as [Hin|Hin]; [discriminate|]).
  by apply elem_of_nil in Hin.
Defined.

(** C10: without an [error_id] in the context, the fresh [uuid4()] string
    names no recorded attempt (uuid uniqueness), so for any category with a
    positive budget the call records attempt 1 for that new id and goes on
    to the recovery action: the budget-exhausted re-raise is never taken. *)
Theorem handle_error_fresh_id (fresh now : string) (err : PyError) (ctx : Context)
    (action : RecoveryAction) (s : Sys) :
  ctx_error_id ctx = None -> recovery_attempts s !! fresh = None ->
  recovery_actions (categorize_error err) = Some action -> (0 < max_retries action)%Z ->
  handle_error fresh now err ctx s =
    execute_recovery now action ctx
      (set_recovery_attempts (<[fresh := 1%Z]> (recovery_attempts s)) s).
Proof.
  intros Hid Hfresh Hact Hpos. unfold handle_error. rewrite Hact, Hid.
  unfold bind, gets, modify. simpl. rewrite Hfresh. simpl.
  destruct (Z.leb_spec (max_retries action) 0); [lia|]. reflexivity.
Qed.

Lemma handle_error_fresh_id_witness :
  handle_error "u1" "now" (mkPyError "TimeoutError" "timed out") (mkContext None None None)
    empty_sys =
  execute_recovery "now" (mkAction RETRY 3 1) (mkContext None None None)
    (set_recovery_attempts (<["u1" := 1%Z]> (recovery_attempts empty_sys)) empty_sys).
Proof. apply handle_error_fresh_id; first [reflexivity | lia]. Defined.














(** * Further properties of the modelled code *)

(** ** StateManager: invariants of [set_state] and [clear_states] *)

Lemma states_of_set (k : StateKind) (m : gmap string string) (s : Sys) :
  states_of k (set_states_of k m s) = m.
Proof. by destruct k. Qed.

Lemma pending_member (k : StateKind) : "pending" ∈ members k.
Proof. destruct k; constructor. Qed.

(** An accepted change of status goes from a member to a member along an
    edge of the table. *)
Lemma validate_transition_ok (cur new : string) (k : StateKind) :
  _validate_transition cur new k = Ok tt -> cur <> new ->
  cur ∈ members k /\ new ∈ members k /\ new ∈ VALID_TRANSITIONS k cur.
Proof.
  unfold _validate_transition, enum_call. intros H Hne.
  destruct (String.eqb_spec cur new) as [|_]; [contradiction|].
  destruct (decide (cur ∈ members k)) as [Hc|]; [|discriminate].
  destruct (decide (new ∈ members k)) as [Hn|]; [|discriminate].
  destruct (decide (new ∈ VALID_TRANSITIONS k cur)); [|discriminate]. auto.
Qed.

Lemma edges_increase_rank (k : StateKind) (cur new : string) :
  cur ∈ members k -> new ∈ VALID_TRANSITIONS k cur ->
  status_rank cur < status_rank new.
Proof.
  intros Hc Hn.
  destruct k; simpl in Hc;
  repeat (apply elem_of_cons in Hc as [->|Hc]; [vm_compute in Hn;
      repeat (apply elem_of_cons in Hn as [->|Hn]; [vm_compute; lia|]);
      by apply elem_of_nil in Hn|]);
  by apply elem_of_nil in Hc.
Qed.

(** [set_state] only ever records members of the kind's enum: if every status
    of the kind's map is a member before the call, it is one afterwards,
    whether the call succeeds or raises. *)
Theorem set_state_keeps_members (k : StateKind) (id status : string) (s s' : Sys) (r : Res unit) :
  valid_states k s -> set_state k id status s = (r, s') -> valid_states k s'.
Proof.
  intros Hv. unfold set_state.
  destruct (_validate_transition _ status k) as [[]|e] eqn:Ht; intros [= <- <-]; [|exact Hv].
  intros id' v. rewrite states_of_set.
  destruct (decide (id' = id)) as [->|Hne].
  - rewrite lookup_insert_eq. intros [= <-].
    destruct (String.eqb_spec (default "pending" (states_of k s !! id)) status) as [Heq|Hne].
    + rewrite <- Heq. destruct (states_of k s !! id) as [v0|] eqn:E; simpl.
      * exact (Hv id v0 E).
      * apply pending_member.
    + by apply (validate_transition_ok _ _ k Ht Hne).
  - rewrite lookup_insert_ne by congruence. apply Hv.
Qed.

Lemma set_state_keeps_members_witness :
  valid_states KTask (snd (set_state KTask "t" "terminated"
                             (set_st_task (<["t" := "completed"]> ∅) empty_sys))).
Proof.
  apply (set_state_keeps_members KTask "t" "terminated"
           (set_st_task (<["t" := "completed"]> ∅) empty_sys) _
           (fst (set_state KTask "t" "terminated"
                   (set_st_task (<["t" := "completed"]> ∅) empty_sys)))).
  - intros id v. simpl. intros H.
    apply lookup_insert_Some in H as [[_ <-]|[_ H]]; [vm_compute; by repeat constructor|].
    by rewrite lookup_empty in H.
  - apply surjective_pairing.
Defined.

(** Statuses never go back: an accepted change writes the new status, whose
    rank is strictly higher than the current one (so an entity changes
    status at most three times, and never leaves [terminated], [failed] only
    for [terminated]). *)
Theorem set_state_never_goes_back (k : StateKind) (id status : string) (s s' : Sys) :
  set_state k id status s = (Ok tt, s') ->
  states_of k s' !! id = Some status /\
  (default "pending" (states_of k s !! id) = status \/
   status_rank (default "pending" (states_of k s !! id)) < status_rank status).
Proof.
  intros H. pose proof (set_state_accepted k id status s s' H) as [-> _].
  rewrite states_of_set, lookup_insert_eq. split; [reflexivity|].
  unfold set_state in H.
  destruct (_validate_transition _ status k) as [[]|e] eqn:Ht; [|discriminate].
  destruct (String.eqb_spec (default "pending" (states_of k s !! id)) status) as [|Hne]; [by left|].
  right. destruct (validate_transition_ok _ _ k Ht Hne) as (Hc & _ & He).
  exact (edges_increase_rank k _ _ Hc He).
Qed.

Lemma set_state_never_goes_back_witness :
  states_of KDebate (snd (set_debate_state "d" "consensus_reached"
     (set_st_debate (<["d" := "in_progress"]> ∅) empty_sys))) !! "d" = Some "consensus_reached" /\
  (default "pending" (states_of KDebate (set_st_debate (<["d" := "in_progress"]> ∅) empty_sys) !! "d")
     = "consensus_reached" \/
   status_rank (default "pending" (states_of KDebate
     (set_st_debate (<["d" := "in_progress"]> ∅) empty_sys) !! "d")) < status_rank "consensus_reached").
Proof.
  apply (set_state_never_goes_back KDebate "d" "consensus_reached"
           (set_st_debate (<["d" := "in_progress"]> ∅) empty_sys)).
  reflexivity.
Defined.



(** After [clear_states] every entity counts as [pending] again: moving any
    of them to [in_progress] or [failed] succeeds, also one that was
    [terminated] or [completed] before, and is recorded alone in its map. *)
Theorem clear_states_reopens (k : StateKind) (id status : string) (s : Sys) :
  status = "in_progress" \/ status = "failed" ->
  set_state k id status (snd (clear_states s)) =
    (Ok tt, set_states_of k {[id := status]} (snd (clear_states s))).
Proof.
  intros Hst. unfold set_state.
  replace (states_of k (snd (clear_states s))) with (∅ : gmap string string) by (by destruct k).
  rewrite lookup_empty. simpl.
  destruct Hst as [->| ->]; destruct k; reflexivity.
Qed.

Lemma clear_states_reopens_witness :
  set_state KWorkflow "w" "in_progress" (snd (clear_states
      (set_st_workflow (<["w" := "terminated"]> ∅) empty_sys))) =
    (Ok tt, set_states_of KWorkflow {["w" := "in_progress"]}
              (snd (clear_states (set_st_workflow (<["w" := "terminated"]> ∅) empty_sys)))).
Proof. apply clear_states_reopens. by left. Defined.

(** ** WorkflowManager: starting, cancelling and running workflows *)

(** [start_workflow] changes nothing when it refuses: at capacity it raises
    [RuntimeError] (before looking the workflow up), an unknown id gives
    [ValueError], and so does a definition with a dependency on a task it
    does not contain. *)
Theorem start_workflow_refusals (wid : string) (s : Sys) :
  (max_concurrent_workflows s <= size (active_workflows s) ->
   start_workflow wid s =
     (Exc (mkPyError "RuntimeError" "Maximum concurrent workflows reached"), s)) /\
  (size (active_workflows s) < max_concurrent_workflows s -> workflows s !! wid = None ->
   start_workflow wid s = (Exc (ValueError ("Workflow " ++ wid ++ " not found")), s)) /\
  (forall wf, size (active_workflows s) < max_concurrent_workflows s ->
   workflows s !! wid = Some wf -> ~ deps_closed wf ->
   exists msg, start_workflow wid s = (Exc (ValueError msg), s)).
Proof.
  unfold start_workflow. split; [|split].
  - intros Hcap. by rewrite (proj2 (Nat.leb_le _ _) Hcap).
  - intros Hcap Hwf. rewrite (proj2 (Nat.leb_gt _ _) Hcap). by rewrite Hwf.
  - intros wf Hcap Hwf Hncl. rewrite (proj2 (Nat.leb_gt _ _) Hcap), Hwf.
    destruct (proj2 (validate_workflow_references wid s wf Hwf) Hncl) as [msg Hv].
    exists msg. unfold bind at 1. by rewrite Hv.
Qed.

Lemma start_workflow_refusals_witness :
  exists msg, start_workflow "d" dangling_sys = (Exc (ValueError msg), dangling_sys).
Proof.
  apply (proj2 (proj2 (start_workflow_refusals "d" dangling_sys)) dangling_wf).
  - vm_compute. lia.
  - reflexivity.
  - intros Hcl. specialize (Hcl task_B "A" ltac:(by constructor) ltac:(by constructor)).
    simpl in Hcl. apply elem_of_cons in Hcl as [Hc|Hc]; [discriminate|].
    by apply elem_of_nil in Hc.
Defined.

Lemma validate_workflow_closed (wid : string) (s : Sys) (wf : WorkflowDefinition) :
  workflows s !! wid = Some wf -> deps_closed wf -> validate_workflow wid s = (Ok true, s).
Proof. intros Hwf Hcl. exact (proj1 (validate_workflow_references wid s wf Hwf) Hcl). Qed.

Lemma set_state_from_pending (k : StateKind) (id : string) (s : Sys) :
  default "pending" (states_of k s !! id) = "pending" ->
  set_state k id "in_progress" s =
    (Ok tt, set_states_of k (<[id := "in_progress"]> (states_of k s)) s).
Proof. intros H. unfold set_state. rewrite H. by destruct k. Qed.

Lemma queue_put_empty (item : QItem) (s : Sys) :
  task_queue s = [] ->
  queue_put item s = (Ok tt, set_unfinished_tasks (S (unfinished_tasks s)) (set_task_queue [item] s)).
Proof. intros H. unfold queue_put. rewrite H. reflexivity. Qed.

Lemma queue_put_tie (p : Z) (wid : string) (t1 t2 : TaskDefinition) (s : Sys) :
  task_queue s = [(p, wid, t1)] -> t1 <> t2 -> task_eqb t2 t1 = false ->
  queue_put (p, wid, t2) s = (Exc TaskTypeError, set_task_queue [(p, wid, t1); (p, wid, t2)] s).
Proof.
  intros H Hne Heq. unfold queue_put, heappush. rewrite H. cbn -[task_eqb].
  rewrite Z.eqb_refl, String.eqb_refl. cbn -[task_eqb].
  rewrite bool_decide_eq_false_2 by congruence. rewrite Heq. reflexivity.
Qed.

Lemma queue_put_same (p : Z) (wid : string) (t : TaskDefinition) (s : Sys) :
  task_queue s = [(p, wid, t)] ->
  queue_put (p, wid, t) s =
    (Ok tt, set_unfinished_tasks (S (unfinished_tasks s))
              (set_task_queue [(p, wid, t); (p, wid, t)] s)).
Proof.
  intros H. unfold queue_put, heappush. rewrite H. simpl.
  rewrite Z.eqb_refl, String.eqb_refl. cbn -[task_eqb].
  rewrite bool_decide_eq_true_2 by reflexivity. reflexivity.
Qed.

Lemma bind_ok {A B} (m : M A) (k : A -> M B) (s : Sys) (a : A) (s' : Sys) :
  m s = (Ok a, s') -> bind m k s = k a s'.
Proof. intros H. unfold bind. by rewrite H. Qed.

Lemma bind_exc {A B} (m : M A) (k : A -> M B) (s : Sys) (e : PyError) (s' : Sys) :
  m s = (Exc e, s') -> bind m k s = (Exc e, s').
Proof. intros H. unfold bind. by rewrite H. Qed.

Lemma bind_assoc {A B C} (m : M A) (k1 : A -> M B) (k2 : B -> M C) (s : Sys) :
  bind (bind m k1) k2 s = bind m (fun a => bind (k1 a) k2) s.
Proof. unfold bind. by destruct (m s) as [[a|e] s']. Qed.

Lemma bind_modify {B} (f : Sys -> Sys) (k : unit -> M B) (s : Sys) :
  bind (modify f) k s = k tt (f s).
Proof. reflexivity. Qed.

(** A registered, pending workflow whose dependencies all name its own
    tasks, with at least two tasks without dependencies, the first two of
    which are not [==] (pydantic compares their fields), cannot be started
    on an empty ready queue with room for one more active workflow: the
    second [put] compares the two [(1, workflow_id, task)] items, ties on
    priority and id, and raises [TypeError].  [start_workflow] fails after
    it has already marked the workflow [in_progress] and active, with both
    items in the heap list but only the first counted, and no consumer
    loop started. *)
Theorem start_workflow_two_roots_TypeError (wid : string) (wf : WorkflowDefinition)
    (t1 t2 : TaskDefinition) (rest : list TaskDefinition) (s : Sys) :
  size (active_workflows s) < max_concurrent_workflows s ->
  workflows s !! wid = Some wf -> deps_closed wf ->
  default "pending" (st_workflow s !! wid) = "pending" ->
  task_queue s = [] ->
  filter (fun t => dependencies t = []) (tasks wf) = t1 :: t2 :: rest -> t1 <> t2 ->
  task_eqb t2 t1 = false ->
  exists s', start_workflow wid s = (Exc TaskTypeError, s') /\
    st_workflow s' !! wid = Some "in_progress" /\ wid ∈ active_workflows s' /\
    task_queue s' = [(1%Z, wid, t1); (1%Z, wid, t2)] /\
    queued_tasks s' = (queued_tasks s + 1)%Z /\ consumers s' = consumers s.
Proof.
  intros Hcap Hwf Hcl Hpend Hq Hroots Hne Heq.
  unfold start_workflow. rewrite (proj2 (Nat.leb_gt _ _) Hcap), Hwf.
  rewrite (bind_ok _ _ _ _ _ (validate_workflow_closed wid s wf Hwf Hcl)).
  rewrite (bind_ok _ _ _ _ _ (set_state_from_pending KWorkflow wid s Hpend)).
  rewrite bind_modify, Hroots. simpl for_each. unfold _queue_task.
  rewrite !bind_assoc. erewrite bind_ok; [|apply queue_put_empty; exact Hq]. rewrite bind_modify.
  rewrite !bind_assoc. erewrite bind_exc; [|apply queue_put_tie; [reflexivity|exact Hne|exact Heq]].
  eexists. split; [reflexivity|]. simpl.
  split; [by rewrite lookup_insert_eq|]. split; [set_solver|]. auto.
Qed.

Lemma start_workflow_two_roots_TypeError_witness :
  exists s', start_workflow "p" par_sys = (Exc TaskTypeError, s') /\
    st_workflow s' !! "p" = Some "in_progress" /\ "p" ∈ active_workflows s' /\
    task_queue s' = [(1%Z, "p", task_A); (1%Z, "p", task_C)] /\
    queued_tasks s' = (queued_tasks par_sys + 1)%Z /\ consumers s' = consumers par_sys.
Proof.
  apply (start_workflow_two_roots_TypeError "p" par_wf task_A task_C []).
  - vm_compute. lia.
  - reflexivity.
  - intros t d Ht Hd. simpl in Ht.
    repeat (apply elem_of_cons in Ht as [->|Ht]; [simpl in Hd; by apply elem_of_nil in Hd|]).
    by apply elem_of_nil in Ht.
  - reflexivity.
  - reflexivity.
  - reflexivity.
  - discriminate.
  - reflexivity.
Defined.

Lemma set_state_same (k : StateKind) (id v : string) (s : Sys) :
  states_of k s !! id = Some v -> set_state k id v s = (Ok tt, s).
Proof.
  intros H. unfold set_state. rewrite H. simpl. unfold _validate_transition.
  rewrite String.eqb_refl, insert_id by exact H. by destruct k, s.
Qed.

(** [start_workflow] is not idempotent.  Take a registered, pending
    workflow whose dependencies all name its own tasks and that has a
    single task without dependencies, with an empty ready queue and
    [size({wid} ∪ active_workflows) < max_concurrent_workflows] (room for
    it also once it is active).  Starting it succeeds; starting it again
    passes all the checks, leaves its status and the active set as they
    are, queues its root task a second time (equal items compare without
    error) and starts a second consumer loop. *)
Theorem start_workflow_twice_requeues (wid : string) (wf : WorkflowDefinition)
    (t : TaskDefinition) (s : Sys) :
  size ({[wid]} ∪ active_workflows s) < max_concurrent_workflows s ->
  workflows s !! wid = Some wf -> deps_closed wf ->
  default "pending" (st_workflow s !! wid) = "pending" ->
  task_queue s = [] ->
  filter (fun t => dependencies t = []) (tasks wf) = [t] ->
  exists s1 s2, start_workflow wid s = (Ok tt, s1) /\ start_workflow wid s1 = (Ok tt, s2) /\
    st_workflow s1 !! wid = Some "in_progress" /\ task_queue s1 = [(1%Z, wid, t)] /\
    st_workflow s2 = st_workflow s1 /\ active_workflows s2 = active_workflows s1 /\
    task_queue s2 = [(1%Z, wid, t); (1%Z, wid, t)] /\
    unfinished_tasks s2 = (unfinished_tasks s + 2)%nat /\
    queued_tasks s2 = (queued_tasks s + 2)%Z /\ consumers s2 = (consumers s + 2)%nat.
Proof.
  intros Hcap Hwf Hcl Hpend Hq Hroots.
  assert (Hcap0 : size (active_workflows s) < max_concurrent_workflows s).
  { eapply Nat.le_lt_trans; [|exact Hcap]. apply subseteq_size. set_solver. }
  unfold start_workflow at 1. rewrite (proj2 (Nat.leb_gt _ _) Hcap0), Hwf.
  rewrite (bind_ok _ _ _ _ _ (validate_workflow_closed wid s wf Hwf Hcl)).
  rewrite (bind_ok _ _ _ _ _ (set_state_from_pending KWorkflow wid s Hpend)).
  rewrite bind_modify, Hroots. simpl for_each. unfold _queue_task.
  rewrite !bind_assoc. erewrite bind_ok; [|apply queue_put_empty; exact Hq].
  rewrite !bind_modify.
  do 2 eexists. split; [reflexivity|].
  match goal with |- start_workflow _ ?x = _ /\ _ => set (s1 := x) end.
  unfold start_workflow.
  assert (Hcap1 : size (active_workflows s1) < max_concurrent_workflows s1) by exact Hcap.
  rewrite (proj2 (Nat.leb_gt _ _) Hcap1).
  assert (Hwf1 : workflows s1 !! wid = Some wf) by exact Hwf.
  rewrite Hwf1.
  rewrite (bind_ok _ _ _ _ _ (validate_workflow_closed wid s1 wf Hwf1 Hcl)).
  assert (Hst1 : states_of KWorkflow s1 !! wid = Some "in_progress").
  { simpl. by rewrite lookup_insert_eq. }
  rewrite (bind_ok _ _ _ _ _ (set_state_same KWorkflow wid "in_progress" s1 Hst1)).
  rewrite bind_modify, Hroots. simpl for_each. unfold _queue_task.
  rewrite !bind_assoc. erewrite bind_ok; [|apply queue_put_same; reflexivity].
  rewrite !bind_modify.
  split; [reflexivity|].
  split; [exact Hst1|]. split; [reflexivity|]. simpl.
  split; [reflexivity|]. split; [set_solver|]. split; [reflexivity|].
  split; [lia|]. split; lia.
Qed.

Lemma start_workflow_twice_requeues_witness :
  exists s1 s2, start_workflow "s" single_sys = (Ok tt, s1) /\ start_workflow "s" s1 = (Ok tt, s2) /\
    st_workflow s1 !! "s" = Some "in_progress" /\ task_queue s1 = [(1%Z, "s", task_A)] /\
    st_workflow s2 = st_workflow s1 /\ active_workflows s2 = active_workflows s1 /\
    task_queue s2 = [(1%Z, "s", task_A); (1%Z, "s", task_A)] /\
    unfinished_tasks s2 = (unfinished_tasks single_sys + 2)%nat /\
    queued_tasks s2 = (queued_tasks single_sys + 2)%Z /\
    consumers s2 = (consumers single_sys + 2)%nat.
Proof.
  apply (start_workflow_twice_requeues "s" single_wf task_A).
  - vm_compute. lia.
  - reflexivity.
  - intros t d Ht Hd. simpl in Ht.
    repeat (apply elem_of_cons in Ht as [->|Ht]; [simpl in Hd; by apply elem_of_nil in Hd|]).
    by apply elem_of_nil in Ht.
  - reflexivity.
  - reflexivity.
  - reflexivity.
Defined.

(** [cancel_workflow] never succeeds: [WorkflowStatus] has no [CANCELLED]
    member, so every registered workflow gets [AttributeError] (an unknown
    one [ValueError]); nothing is changed, in particular the workflow stays
    in the active set and keeps its status. *)
Theorem cancel_workflow_always_raises (wid : string) (s : Sys) :
  cancel_workflow wid s =
    (Exc (if bool_decide (is_Some (workflows s !! wid))
          then mkPyError "AttributeError" "CANCELLED"
          else ValueError ("Workflow " ++ wid ++ " not found")), s).
Proof. unfold cancel_workflow, bind, gets. simpl. by case_bool_decide. Qed.

Lemma keeps_active_ret {A} (a : A) : keeps_active (ret a).
Proof. intros s. reflexivity. Qed.

Lemma keeps_active_raise {A} (e : PyError) : keeps_active (raise (A:=A) e).
Proof. intros s. reflexivity. Qed.

Lemma keeps_active_gets {A} (f : Sys -> A) : keeps_active (gets f).
Proof. intros s. reflexivity. Qed.

Lemma keeps_active_bind {A B} (m : M A) (k : A -> M B) :
  keeps_active m -> (forall a, keeps_active (k a)) -> keeps_active (bind m k).
Proof.
  intros Hm Hk s. unfold bind. specialize (Hm s).
  destruct (m s) as [[a|e] s']; simpl in *; [rewrite Hk|]; exact Hm.
Qed.

Lemma keeps_active_set_state (k : StateKind) (id status : string) :
  keeps_active (set_state k id status).
Proof.
  intros s. unfold set_state. destruct (_validate_transition _ _ _); [|reflexivity].
  by destruct k.
Qed.

Lemma keeps_active_emit (e : Event) : keeps_active (emit e).
Proof. intros s. reflexivity. Qed.

Lemma keeps_active_queue_put (item : QItem) : keeps_active (queue_put item).
Proof. intros s. unfold queue_put. by destruct (heappush _ _) as [[]]. Qed.

Lemma keeps_active_queue_task (wid : string) (t : TaskDefinition) (p : Z) :
  keeps_active (_queue_task wid t p).
Proof.
  apply keeps_active_bind; [apply keeps_active_queue_put|]. intros _ s. reflexivity.
Qed.

Lemma keeps_active_for_each {A} (l : list A) (body : A -> M unit) :
  (forall x, keeps_active (body x)) -> keeps_active (for_each l body).
Proof.
  intros Hb. induction l as [|x l IH]; [apply keeps_active_ret|].
  apply keeps_active_bind; auto.
Qed.

Lemma keeps_active_get_workflow_def (wid : string) : keeps_active (get_workflow_def wid).
Proof. intros s. unfold get_workflow_def. by destruct (_ !! _). Qed.

Lemma keeps_active_remove_active (wid : string) : keeps_active (remove_active wid).
Proof. intros s. unfold remove_active. by destruct (decide _). Qed.

Create HintDb keeps.
#[local] Hint Resolve keeps_active_ret keeps_active_raise keeps_active_gets keeps_active_bind
  keeps_active_set_state keeps_active_emit keeps_active_queue_task keeps_active_for_each
  keeps_active_get_workflow_def keeps_active_remove_active : keeps.

Lemma keeps_active_run_task (wid : string) (t : TaskDefinition) : keeps_active (run_task wid t).
Proof.
  unfold run_task, set_task_state, set_workflow_state.
  repeat (apply keeps_active_bind; [eauto with keeps|intros ?]).
  - apply keeps_active_for_each. intros x. destruct (_ && _); eauto with keeps.
  - destruct (decide _); eauto with keeps.
Qed.

Lemma keeps_active_task_failed (wid : string) (t : TaskDefinition) (e : PyError) :
  keeps_active (task_failed wid t e).
Proof. unfold task_failed, set_task_state. eauto with keeps. Qed.

Lemma keeps_active_try_except {A} (m : M A) (h : PyError -> M A) :
  keeps_active m -> (forall e, keeps_active (h e)) -> keeps_active (try_except m h).
Proof.
  intros Hm Hh s. unfold try_except. specialize (Hm s).
  destruct (m s) as [[a|e] s']; simpl in *; [|rewrite Hh]; exact Hm.
Qed.

Lemma keeps_active_queue_get : keeps_active queue_get.
Proof. intros s. unfold queue_get. by destruct (heappop _). Qed.

Lemma keeps_active_task_done : keeps_active task_done.
Proof. intros s. unfold task_done. by destruct (unfinished_tasks s). Qed.

(** The counter is raised around a body that keeps it and lowered in the
    [finally] block. *)
Lemma keeps_active_bracket {A} (m : M A) (fin : M unit) :
  keeps_active m -> keeps_active fin ->
  keeps_active (modify (fun s => set_active_tasks (active_tasks s + 1)
                                   (set_queued_tasks (queued_tasks s - 1) s)) ;;
                try_finally m (modify (fun s => set_active_tasks (active_tasks s - 1) s) ;; fin)).
Proof.
  intros Hm Hf s. unfold bind at 1, modify at 1, try_finally.
  pose proof (Hm (set_active_tasks (active_tasks s + 1) (set_queued_tasks (queued_tasks s - 1) s))) as Hm'.
  destruct (m _) as [r s1]. simpl in Hm'.
  unfold bind, modify. pose proof (Hf (set_active_tasks (active_tasks s1 - 1) s1)) as Hf'.
  destruct (fin _) as [[[]|e] s2]; simpl in *; rewrite Hf'; simpl; rewrite Hm'; lia.
Qed.

(** Each iteration of the consumer loop gives [resource_usage.active_tasks]
    back the value it had before: the increment after [get] is undone in
    the [finally] block, whether the task ran, failed, or [task_done]
    raised; an iteration whose [get] raised touches neither. *)
Theorem exec_step_keeps_active_tasks (s s' : Sys) :
  exec_step s = Some s' -> active_tasks s' = active_tasks s.
Proof.
  unfold exec_step. destruct (task_queue s); [discriminate|]. intros [= <-].
  apply keeps_active_try_except; [|intros; apply keeps_active_ret].
  apply keeps_active_bind; [apply keeps_active_queue_get|]. intros [[p wid] t].
  apply keeps_active_bracket; [|apply keeps_active_task_done].
  apply keeps_active_try_except; [apply keeps_active_run_task|apply keeps_active_task_failed].
Qed.

Lemma exec_step_keeps_active_tasks_witness :
  active_tasks (run_loop 1 (snd (start_workflow "w" chain_sys))) =
  active_tasks (snd (start_workflow "w" chain_sys)).
Proof.
  apply (exec_step_keeps_active_tasks (snd (start_workflow "w" chain_sys))
           (run_loop 1 (snd (start_workflow "w" chain_sys)))).
  vm_compute. reflexivity.
Defined.

Lemma set_state_ok (k : StateKind) (id status : string) (s : Sys) :
  _validate_transition (default "pending" (states_of k s !! id)) status k = Ok tt ->
  set_state k id status s = (Ok tt, set_states_of k (<[id := status]> (states_of k s)) s).
Proof. intros H. unfold set_state. by rewrite H. Qed.

Lemma bind_gets {A B} (f : Sys -> A) (k : A -> M B) (s : Sys) :
  bind (gets f) k s = k (f s) s.
Proof. reflexivity. Qed.

Lemma bind_ret {A B} (a : A) (k : A -> M B) (s : Sys) : bind (ret a) k s = k a s.
Proof. reflexivity. Qed.

Lemma run_task_single (wid : string) (wf : WorkflowDefinition) (t : TaskDefinition) (s : Sys) :
  tasks wf = [t] -> workflows s !! wid = Some wf ->
  st_workflow s !! wid = Some "in_progress" -> wid ∈ active_workflows s ->
  default "pending" (st_task s !! task_id t) = "pending" ->
  exists s', run_task wid t s = (Ok tt, s') /\
    st_workflow s' = <[wid := "completed"]> (st_workflow s) /\
    st_task s' !! task_id t = Some "completed" /\
    active_workflows s' = active_workflows s ∖ {[wid]} /\
    events s' = (events s ++
      [mkEvent "step_started" (Some wid) (Some (task_id t))
         [("task_name", name t); ("agent_pair", agent_pair_id t)];
       mkEvent "step_completed" (Some wid) (Some (task_id t)) [("status", "completed")]])%list /\
    task_queue s' = task_queue s /\ unfinished_tasks s' = unfinished_tasks s /\
    active_tasks s' = active_tasks s /\ queued_tasks s' = queued_tasks s.
Proof.
  intros Ht Hwf Hw Ha Hpt.
  unfold run_task, set_task_state, set_workflow_state, emit.
  rewrite (bind_ok _ _ _ _ _ (set_state_ok KTask _ "in_progress" s ltac:(simpl; by rewrite Hpt))).
  rewrite bind_modify.
  erewrite bind_ok; [|apply set_state_ok; simpl; by rewrite lookup_insert_eq].
  rewrite bind_modify.
  erewrite bind_ok; [|unfold get_workflow_def; simpl; by rewrite Hwf].
  rewrite bind_gets, Ht. simpl for_each.
  rewrite String.eqb_refl. simpl negb. simpl andb. cbn iota.
  rewrite decide_True.
  2:{ unfold completed_tasks_of. rewrite Ht, filter_cons_True; [reflexivity|].
      simpl. by rewrite lookup_insert_eq. }
  rewrite bind_assoc, !bind_ret.
  erewrite bind_ok; [|apply set_state_ok; simpl; by rewrite Hw].
  unfold remove_active. simpl. rewrite decide_True by exact Ha.
  eexists. split; [reflexivity|]. simpl.
  split; [reflexivity|]. split; [by rewrite lookup_insert_eq|].
  split; [reflexivity|]. split; [by rewrite <- app_assoc|]. auto.
Qed.

Lemma iteration_ok (s s1 s3 : Sys) (p : Z) (wid : string) (task : TaskDefinition) (n : nat) :
  queue_get s = (Ok (p, wid, task), s1) ->
  run_task wid task (set_active_tasks (active_tasks s1 + 1)
                       (set_queued_tasks (queued_tasks s1 - 1) s1)) = (Ok tt, s3) ->
  unfinished_tasks s3 = S n ->
  _execute_tasks_iteration s = (Ok tt, set_unfinished_tasks n (set_active_tasks (active_tasks s3 - 1) s3)).
Proof.
  intros Hg Hr Hu. unfold _execute_tasks_iteration, try_except, bind at 1.
  rewrite Hg. unfold bind, modify at 1, try_finally. rewrite Hr.
  unfold modify, task_done. simpl. by rewrite Hu.
Qed.

(** A registered workflow of one task without dependencies, still pending,
    whose task id is untracked or pending, started while the ready queue is
    empty and fewer than [max_concurrent_workflows] workflows are active,
    runs to its end in one iteration of the consumer loop: [start_workflow]
    queues the task, the loop runs it, marks it and the workflow
    [completed], emits [step_started] and [step_completed], and removes the
    workflow from the active set; the queue is empty and the counters are
    back to their values before the start. *)
Theorem single_task_workflow_completes (wid : string) (wf : WorkflowDefinition)
    (t : TaskDefinition) (s : Sys) :
  tasks wf = [t] -> dependencies t = [] ->
  size (active_workflows s) < max_concurrent_workflows s ->
  workflows s !! wid = Some wf ->
  default "pending" (st_workflow s !! wid) = "pending" ->
  default "pending" (st_task s !! task_id t) = "pending" ->
  task_queue s = [] ->
  exists s1 s2, start_workflow wid s = (Ok tt, s1) /\ exec_step s1 = Some s2 /\
    st_workflow s2 !! wid = Some "completed" /\
    st_task s2 !! task_id t = Some "completed" /\
    (wid ∉ active_workflows s2) /\ task_queue s2 = [] /\
    events s2 = (events s ++
      [mkEvent "step_started" (Some wid) (Some (task_id t))
         [("task_name", name t); ("agent_pair", agent_pair_id t)];
       mkEvent "step_completed" (Some wid) (Some (task_id t)) [("status", "completed")]])%list /\
    active_tasks s2 = active_tasks s /\ queued_tasks s2 = queued_tasks s /\
    unfinished_tasks s2 = unfinished_tasks s.
Proof.
  intros Ht Hdep Hcap Hwf Hpw Hpt Hq.
  assert (Hcl : deps_closed wf).
  { intros t' d Ht' Hd. rewrite Ht in Ht'. apply list_elem_of_singleton in Ht' as ->.
    rewrite Hdep in Hd. by apply elem_of_nil in Hd. }
  unfold start_workflow. rewrite (proj2 (Nat.leb_gt _ _) Hcap), Hwf.
  rewrite (bind_ok _ _ _ _ _ (validate_workflow_closed wid s wf Hwf Hcl)).
  rewrite (bind_ok _ _ _ _ _ (set_state_from_pending KWorkflow wid s Hpw)).
  rewrite bind_modify, Ht, filter_cons_True by exact Hdep. rewrite filter_nil.
  simpl for_each. unfold _queue_task.
  rewrite !bind_assoc. erewrite bind_ok; [|apply queue_put_empty; exact Hq].
  rewrite !bind_modify.
  rewrite bind_ret.
  match goal with |- exists s1 s2, modify ?f ?x = _ /\ _ => set (s1 := f x) end.
  exists s1.
  assert (Hg : queue_get s1 = (Ok (1%Z, wid, t), set_task_queue [] s1)) by reflexivity.
  destruct (run_task_single wid wf t
              (set_active_tasks (active_tasks (set_task_queue [] s1) + 1)
                 (set_queued_tasks (queued_tasks (set_task_queue [] s1) - 1)
                    (set_task_queue [] s1))) Ht)
    as (s3 & Hr & Hw3 & Ht3 & Ha3 & He3 & Hq3 & Hu3 & Hat3 & Hqt3).
  { exact Hwf. }
  { simpl. by rewrite lookup_insert_eq. }
  { simpl. set_solver. }
  { exact Hpt. }
  eexists. split; [reflexivity|].
  unfold exec_step. simpl task_queue. cbv iota.
  rewrite (iteration_ok s1 _ s3 1%Z wid t (unfinished_tasks s) Hg Hr) by (rewrite Hu3; reflexivity).
  split; [reflexivity|]. simpl.
  rewrite Hw3, Ht3, Ha3, He3, Hq3, Hat3, Hqt3. simpl.
  split; [by rewrite lookup_insert_eq|]. split; [reflexivity|].
  split; [set_solver|]. split; [reflexivity|]. split; [reflexivity|].
  split; [lia|]. split; [lia|]. reflexivity.
Qed.

Lemma single_task_workflow_completes_witness :
  exists s1 s2, start_workflow "s" single_sys = (Ok tt, s1) /\ exec_step s1 = Some s2 /\
    st_workflow s2 !! "s" = Some "completed" /\
    st_task s2 !! task_id task_A = Some "completed" /\
    ("s" ∉ active_workflows s2) /\ task_queue s2 = [] /\
    events s2 = (events single_sys ++
      [mkEvent "step_started" (Some "s") (Some (task_id task_A))
         [("task_name", name task_A); ("agent_pair", agent_pair_id task_A)];
       mkEvent "step_completed" (Some "s") (Some (task_id task_A)) [("status", "completed")]])%list /\
    active_tasks s2 = active_tasks single_sys /\ queued_tasks s2 = queued_tasks single_sys /\
    unfinished_tasks s2 = unfinished_tasks single_sys.
Proof.
  apply (single_task_workflow_completes "s" single_wf task_A single_sys);
    first [reflexivity | vm_compute; lia].
Defined.

(** ** RecoveryManager: error handling, the decorator and checkpoints *)

(** The recovery routines never change the system state. *)
Lemma execute_recovery_state (now : string) (action : RecoveryAction) (ctx : Context) (s : Sys) :
  snd (execute_recovery now action ctx s) = s.
Proof.
  unfold execute_recovery.
  destruct (level action); try reflexivity.
  - unfold bind, restore_checkpoint.
    destruct (ctx_checkpoint_id ctx) as [c|]; [|reflexivity].
    destruct (String.eqb c ""); [reflexivity|].
    destruct (checkpoint_files s !! c) as [[j|]|]; [|reflexivity|reflexivity].
    by destruct (from_dict now (json_load j)).
  - unfold run_cleanup. by destruct (ctx_cleanup_func ctx) as [[]|].
  - unfold run_cleanup. by destruct (ctx_cleanup_func ctx) as [[]|].
Qed.

(** [handle_error] changes nothing in the system but the attempt counter of
    its own error id, which it raises by one: the state manager's maps, the
    workflows, the queue and the checkpoints are never touched (so the
    [ROLLBACK] and [CHECKPOINT] actions do not restore anything), and the
    counters of other error ids are left as they are. *)
Theorem handle_error_only_own_counter (fresh now : string) (err : PyError) (ctx : Context) (s : Sys) :
  let eid := default fresh (ctx_error_id ctx) in
  snd (handle_error fresh now err ctx s) = s \/
  snd (handle_error fresh now err ctx s) =
    set_recovery_attempts
      (<[eid := (default 0%Z (recovery_attempts s !! eid) + 1)%Z]> (recovery_attempts s)) s.
Proof.
  simpl. unfold handle_error.
  destruct (recovery_actions (categorize_error err)) as [action|]; [|by left].
  unfold bind, gets. simpl.
  destruct (Z.leb (max_retries action)
    (default 0%Z (recovery_attempts s !! default fresh (ctx_error_id ctx)))); [by left|]. right.
  apply execute_recovery_state.
Qed.

(** Errors of the categories with [max_retries = 0] ([VALIDATION], handled
    by [TERMINATE], and [SYSTEM], handled by [EMERGENCY]) are re-raised on
    the very first call, so their cleanup function is never awaited and no
    attempt is recorded. *)
Theorem handle_error_zero_budget (fresh now : string) (err : PyError) (ctx : Context) (s : Sys) :
  categorize_error err = VALIDATION \/ categorize_error err = SYSTEM ->
  (0 <= default 0 (recovery_attempts s !! default fresh (ctx_error_id ctx)))%Z ->
  handle_error fresh now err ctx s = (Exc err, s).
Proof.
  intros Hc Hpos. unfold handle_error.
  assert (Ha : exists lv, recovery_actions (categorize_error err) = Some (mkAction lv 0 0))
    by (destruct Hc as [-> | ->]; eexists; reflexivity).
  destruct Ha as [lv ->]. unfold bind, gets. simpl.
  by rewrite (proj2 (Z.leb_le _ _) Hpos).
Qed.

Lemma handle_error_zero_budget_witness :
  handle_error "u1" "now" (mkPyError "ValidationError" "bad input")
    (mkContext (Some "e1") None (Some (Some (mkPyError "RuntimeError" "cleanup failed"))))
    empty_sys =
  (Exc (mkPyError "ValidationError" "bad input"), empty_sys).
Proof. apply handle_error_zero_budget; [left; reflexivity | simpl; rewrite lookup_empty; simpl; lia]. Defined.

(** A [RESOURCE] error whose context names no checkpoint (no
    [checkpoint_id], or an empty one) is counted as an attempt, and then
    [restore_checkpoint] raises [ValueError], which replaces the original
    error. *)
Theorem handle_error_resource_without_checkpoint (fresh now : string) (err : PyError)
    (ctx : Context) (s : Sys) :
  categorize_error err = RESOURCE ->
  ctx_checkpoint_id ctx = None \/ ctx_checkpoint_id ctx = Some "" ->
  (default 0 (recovery_attempts s !! default fresh (ctx_error_id ctx)) < 2)%Z ->
  handle_error fresh now err ctx s =
    (Exc (ValueError "No checkpoint ID provided"),
     set_recovery_attempts
       (<[default fresh (ctx_error_id ctx) :=
          (default 0 (recovery_attempts s !! default fresh (ctx_error_id ctx)) + 1)%Z]>
          (recovery_attempts s)) s).
Proof.
  intros Hc Hid Hlt. unfold handle_error. rewrite Hc. simpl.
  unfold bind, gets. simpl.
  rewrite (proj2 (Z.leb_gt _ _) Hlt). simpl.
  unfold restore_checkpoint. destruct ctx as [ei ci cf]; simpl in *.
  destruct Hid as [-> | ->]; reflexivity.
Qed.

Lemma handle_error_resource_without_checkpoint_witness :
  handle_error "u1" "now" (mkPyError "ResourceError" "out of memory")
    (mkContext (Some "e1") None None) empty_sys =
    (Exc (ValueError "No checkpoint ID provided"),
     set_recovery_attempts (<["e1" := (default 0 (recovery_attempts empty_sys !! "e1") + 1)%Z]>
                              (recovery_attempts empty_sys)) empty_sys).
Proof.
  apply (handle_error_resource_without_checkpoint "u1" "now"
           (mkPyError "ResourceError" "out of memory") (mkContext (Some "e1") None None)).
  - reflexivity.
  - by left.
  - simpl. rewrite lookup_empty. simpl. lia.
Defined.

(** The [with_recovery] wrapper never retries: when the wrapped call raises
    a transient error with budget left, the attempt is recorded and the same
    error reaches the caller.  Without a recovery manager it raises
    [ValueError] before calling the function at all. *)
Theorem with_recovery_transient_not_retried {A} (fresh now eid : string) (err : PyError)
    (ctx : Context) (func : M A) (s s1 : Sys) :
  categorize_error err = TRANSIENT -> ctx_error_id ctx = Some eid ->
  (default 0 (recovery_attempts s1 !! eid) < 3)%Z ->
  func s = (Exc err, s1) ->
  with_recovery fresh now ctx true func s =
    (Exc err, set_recovery_attempts
                (<[eid := (default 0 (recovery_attempts s1 !! eid) + 1)%Z]> (recovery_attempts s1)) s1) /\
  with_recovery fresh now ctx false func s = (Exc (ValueError "No recovery manager available"), s).
Proof.
  intros Hc Hid Hlt Hf. split; [|reflexivity].
  unfold with_recovery, try_except. simpl. rewrite Hf.
  unfold bind at 1. rewrite (handle_error_transient fresh now eid err ctx s1 Hc Hid).
  simpl. by rewrite (proj2 (Z.leb_gt _ _) Hlt).
Qed.

Lemma with_recovery_transient_not_retried_witness :
  with_recovery "u1" "now" (mkContext (Some "e1") None None) true
    (raise (A:=unit) (mkPyError "ConnectionError" "Temporary failure")) empty_sys =
    (Exc (mkPyError "ConnectionError" "Temporary failure"),
     set_recovery_attempts (<["e1" := (default 0 (recovery_attempts empty_sys !! "e1") + 1)%Z]>
                              (recovery_attempts empty_sys)) empty_sys) /\
  with_recovery "u1" "now" (mkContext (Some "e1") None None) false
    (raise (A:=unit) (mkPyError "ConnectionError" "Temporary failure")) empty_sys =
    (Exc (ValueError "No recovery manager available"), empty_sys).
Proof.
  apply with_recovery_transient_not_retried.
  - reflexivity.
  - reflexivity.
  - simpl. rewrite lookup_empty. simpl. lia.
  - reflexivity.
Defined.

(** A [create_checkpoint] whose [json.dump] fails still leaves a file under
    the given id: it cannot be parsed, so restoring that id afterwards raises
    [JSONDecodeError]; an earlier good checkpoint with the same id is lost. *)
Theorem checkpoint_failed_write_unreadable (float_repr : spec_float -> string)
    (fresh now cid : string) (st : SystemState) (e : PyError) (s : Sys) :
  json_dump float_repr (to_dict st) = Exc e -> cid <> "" ->
  create_checkpoint float_repr fresh st (Some cid) s =
    (Exc e, set_checkpoint_files (<[cid := None]> (checkpoint_files s)) s) /\
  restore_checkpoint now (mkContext None (Some cid) None)
    (set_checkpoint_files (<[cid := None]> (checkpoint_files s)) s) =
    (Exc (mkPyError "JSONDecodeError" "Expecting value"),
     set_checkpoint_files (<[cid := None]> (checkpoint_files s)) s).
Proof.
  intros Hd Hc. apply String.eqb_neq in Hc. split.
  - unfold create_checkpoint. by rewrite Hc, Hd.
  - unfold restore_checkpoint. simpl. by rewrite Hc, lookup_insert_eq.
Qed.

Lemma checkpoint_failed_write_unreadable_witness :
  create_checkpoint sample_float_repr "u1"
    (mkSystemState (PDict []) (PDict []) (PDict []) (str_dict [("started", PObj "datetime" 0)]) "t0")
    (Some "ckpt") (set_checkpoint_files (<["ckpt" := Some (JObj [])]> ∅) empty_sys) =
    (Exc (mkPyError "TypeError" "Object of type datetime is not JSON serializable"),
     set_checkpoint_files (<["ckpt" := None]>
       (checkpoint_files (set_checkpoint_files (<["ckpt" := Some (JObj [])]> ∅) empty_sys)))
       (set_checkpoint_files (<["ckpt" := Some (JObj [])]> ∅) empty_sys)) /\
  restore_checkpoint "t1" (mkContext None (Some "ckpt") None)
    (set_checkpoint_files (<["ckpt" := None]>
       (checkpoint_files (set_checkpoint_files (<["ckpt" := Some (JObj [])]> ∅) empty_sys)))
       (set_checkpoint_files (<["ckpt" := Some (JObj [])]> ∅) empty_sys)) =
    (Exc (mkPyError "JSONDecodeError" "Expecting value"),
     set_checkpoint_files (<["ckpt" := None]>
       (checkpoint_files (set_checkpoint_files (<["ckpt" := Some (JObj [])]> ∅) empty_sys)))
       (set_checkpoint_files (<["ckpt" := Some (JObj [])]> ∅) empty_sys)).
Proof. apply checkpoint_failed_write_unreadable; [reflexivity | discriminate]. Defined.




(** ** The ready queue: pushes and pops keep the items *)

Lemma siftdown_perm (fuel startpos pos : nat) (h : list QItem) :
  snd (siftdown fuel startpos pos h) ≡ₚ h.
Proof.
  revert pos h. induction fuel as [|fuel IH]; intros pos h; [reflexivity|].
  cbn -[Nat.div]. destruct (Nat.leb pos startpos); [reflexivity|].
  destruct (h !! pos) as [newitem|] eqn:Hn; [|reflexivity].
  destruct (h !! ((pos - 1) `div` 2)) as [parent|] eqn:Hp; [|reflexivity].
  destruct (item_lt newitem parent) as [[]|e]; try reflexivity.
  rewrite IH. by apply Permutation_insert_swap.
Qed.

Lemma siftup_loop_perm (fuel endpos pos : nat) (h : list QItem) :
  snd (siftup_loop fuel endpos pos h) ≡ₚ h.
Proof.
  revert pos h. induction fuel as [|fuel IH]; intros pos h; [reflexivity|].
  cbn -[Nat.div Nat.mul]. destruct (negb _); [reflexivity|].
  match goal with |- snd (match ?cmp with Ok _ => _ | Exc _ => _ end) ≡ₚ _ =>
    destruct cmp as [c|e]; [|reflexivity] end.
  set (cp := if c then 2 * pos + 1 else 2 * pos + 1 + 1).
  destruct (h !! cp) as [t1|] eqn:H1; [|reflexivity].
  destruct (h !! pos) as [t2|] eqn:H2; [|reflexivity].
  rewrite IH. by apply Permutation_insert_swap.
Qed.

Lemma siftup_perm (pos : nat) (h : list QItem) : snd (siftup pos h) ≡ₚ h.
Proof.
  unfold siftup. pose proof (siftup_loop_perm (length h) (length h) pos h) as H.
  destruct (siftup_loop _ _ _ _) as [[p|e] h']; simpl in *; [|exact H].
  by rewrite siftdown_perm.
Qed.

Lemma heappush_perm (h : list QItem) (item : QItem) :
  snd (heappush h item) ≡ₚ (h ++ [item])%list.
Proof. unfold heappush. apply siftdown_perm. Qed.

Lemma item_lt_exc (a b : QItem) (e : PyError) : item_lt a b = Exc e -> e = TaskTypeError.
Proof.
  destruct a as [[pa wa] ta], b as [[pb wb] tb]. unfold item_lt.
  repeat case_match; intros He; try discriminate. by injection He as <-.
Qed.

Lemma siftdown_exc (fuel startpos pos : nat) (h : list QItem) (e : PyError) :
  fst (siftdown fuel startpos pos h) = Exc e -> e = TaskTypeError.
Proof.
  revert pos h. induction fuel as [|fuel IH]; intros pos h; [discriminate|].
  cbn [siftdown]. repeat case_match; cbn [fst]; try discriminate; try apply IH.
  intros [= <-]. eapply item_lt_exc. eassumption.
Qed.

Lemma siftup_loop_exc (fuel endpos pos : nat) (h : list QItem) (e : PyError) :
  fst (siftup_loop fuel endpos pos h) = Exc e -> e = TaskTypeError.
Proof.
  revert pos h. induction fuel as [|fuel IH]; intros pos h; [discriminate|].
  cbn [siftup_loop]. repeat case_match; cbn [fst]; try discriminate; try apply IH.
  intros [= <-]. eapply item_lt_exc. eassumption.
Qed.

Lemma siftup_exc (pos : nat) (h : list QItem) (e : PyError) :
  fst (siftup pos h) = Exc e -> e = TaskTypeError.
Proof.
  unfold siftup. pose proof (siftup_loop_exc (length h) (length h) pos h) as Hl.
  destruct (siftup_loop (length h) (length h) pos h) as [[p|e0] h'].
  - apply siftdown_exc.
  - intros [= <-]. by apply Hl.
Qed.

Lemma heappop_perm (h : list QItem) :
  h <> [] ->
  exists x rest, h = x :: rest /\ snd (heappop h) ≡ₚ rest /\
    (forall y, fst (heappop h) = Ok y -> y = x) /\
    (forall e, fst (heappop h) = Exc e -> e = TaskTypeError).
Proof.
  intros Hne. destruct (last h) as [lastelt|] eqn:Hl.
  2:{ apply last_None in Hl. contradiction. }
  apply last_Some in Hl as [l' ->].
  unfold heappop. rewrite last_snoc, removelast_last.
  destruct l' as [|returnitem rest].
  - exists lastelt, []. simpl. split; [reflexivity|]. split; [reflexivity|].
    split; [by intros y [= ->]|discriminate].
  - exists returnitem, (rest ++ [lastelt])%list. split; [reflexivity|]. simpl.
    pose proof (siftup_perm 0 (lastelt :: rest)) as H.
    pose proof (siftup_exc 0 (lastelt :: rest)) as He.
    destruct (siftup 0 (lastelt :: rest)) as [[[]|e] h2]; simpl in *.
    + split; [|split; [by intros y [= ->]|discriminate]].
      rewrite H. by rewrite Permutation_app_comm.
    + split; [|split; [discriminate|intros e' [= <-]; by apply He]].
      rewrite H. by rewrite Permutation_app_comm.
Qed.

(** [task_queue.put] never loses or duplicates an item: the heap list
    afterwards is a permutation of the old one plus the new item, also when
    a comparison raises [TypeError]; in that case the item stays in the
    heap but [_unfinished_tasks] is not incremented. *)
Theorem queue_put_keeps_items (item : QItem) (s s' : Sys) (r : Res unit) :
  queue_put item s = (r, s') ->
  task_queue s' ≡ₚ (task_queue s ++ [item])%list /\
  ((r = Ok tt /\ unfinished_tasks s' = S (unfinished_tasks s)) \/
   (exists e, r = Exc e /\ unfinished_tasks s' = unfinished_tasks s)).
Proof.
  unfold queue_put. pose proof (heappush_perm (task_queue s) item) as H.
  destruct (heappush _ _) as [[[]|e] h]; intros [= <- <-]; simpl in *.
  - split; [exact H|]. by left.
  - split; [exact H|]. right. by exists e.
Qed.

Lemma queue_put_keeps_items_witness :
  task_queue (snd (queue_put (1%Z, "w", task_B) (set_task_queue [(1%Z, "w", task_A)] empty_sys)))
    ≡ₚ (task_queue (set_task_queue [(1%Z, "w", task_A)] empty_sys) ++ [(1%Z, "w", task_B)])%list /\
  ((fst (queue_put (1%Z, "w", task_B) (set_task_queue [(1%Z, "w", task_A)] empty_sys)) = Ok tt /\
    unfinished_tasks (snd (queue_put (1%Z, "w", task_B) (set_task_queue [(1%Z, "w", task_A)] empty_sys)))
      = S (unfinished_tasks (set_task_queue [(1%Z, "w", task_A)] empty_sys))) \/
   (exists e, fst (queue_put (1%Z, "w", task_B) (set_task_queue [(1%Z, "w", task_A)] empty_sys)) = Exc e /\
    unfinished_tasks (snd (queue_put (1%Z, "w", task_B) (set_task_queue [(1%Z, "w", task_A)] empty_sys)))
      = unfinished_tasks (set_task_queue [(1%Z, "w", task_A)] empty_sys))).
Proof. apply queue_put_keeps_items. apply surjective_pairing. Defined.

(** [task_queue.get] on a non-empty queue always takes exactly one item out
    of the heap list, the old root [heap[0]]: it returns that item, or the
    comparison of two remaining tasks while restoring the heap raises
    [TypeError] and the old root is lost. *)
Theorem queue_get_takes_one (s s' : Sys) (r : Res QItem) :
  task_queue s <> [] -> queue_get s = (r, s') ->
  exists x rest, task_queue s = x :: rest /\ task_queue s' ≡ₚ rest /\
    (forall y, r = Ok y -> y = x) /\ (forall e, r = Exc e -> e = TaskTypeError).
Proof.
  intros Hne. unfold queue_get.
  destruct (heappop_perm (task_queue s) Hne) as (x & rest & Hq & Hp & Hr & He).
  destruct (heappop (task_queue s)) as [r0 h]. intros [= <- <-].
  exists x, rest. auto.
Qed.

(** Three tasks of one workflow with the same priority: the pop compares the
    two remaining different tasks, raises, and the root [A] is gone. *)
Lemma queue_get_takes_one_witness :
  exists x rest,
    task_queue (set_task_queue
      [(1%Z, "w", task_A); (1%Z, "w", task_B); (1%Z, "w", cyc_X)] empty_sys) = x :: rest /\
    task_queue (snd (queue_get (set_task_queue
      [(1%Z, "w", task_A); (1%Z, "w", task_B); (1%Z, "w", cyc_X)] empty_sys))) ≡ₚ rest /\
    (forall y, fst (queue_get (set_task_queue
      [(1%Z, "w", task_A); (1%Z, "w", task_B); (1%Z, "w", cyc_X)] empty_sys)) = Ok y -> y = x) /\
    (forall e, fst (queue_get (set_task_queue
      [(1%Z, "w", task_A); (1%Z, "w", task_B); (1%Z, "w", cyc_X)] empty_sys)) = Exc e ->
       e = TaskTypeError).
Proof.
  apply queue_get_takes_one; [discriminate | apply surjective_pairing].
Defined.

(** ** EventEmitter: handler registry and event dispatch *)

(** Removing a handler right after adding it takes out every registration
    of that handler for the event type (also earlier ones), keeps the other
    handlers of that type in their order, and touches no other type. *)
Theorem remove_handler_after_add (t : string) (h : nat) (em : Emitter) :
  handlers (remove_handler t h (add_handler t h em)) !! t =
    Some (filter (fun x => x <> h) (default [] (handlers em !! t))) /\
  (forall t', t' <> t ->
     handlers (remove_handler t h (add_handler t h em)) !! t' = handlers em !! t') /\
  event_queue (remove_handler t h (add_handler t h em)) = event_queue em.
Proof.
  unfold remove_handler, add_handler. simpl. rewrite lookup_insert_eq. simpl.
  split; [|split; [|reflexivity]].
  - rewrite lookup_insert_eq, filter_app. simpl.
    rewrite filter_cons_False by (intros H; by apply H). simpl. by rewrite app_nil_r.
  - intros t' Hne. by rewrite !lookup_insert_ne by congruence.
Qed.

Lemma em_step_queue (em em' : Emitter) (l : EmLabel) :
  em_step em l em' -> (delivered [l] ++ event_queue em')%list = (event_queue em ++ emitted [l])%list.
Proof.
  destruct 1 as [o em|em e q hs Hp Hq Hhs].
  - destruct o as [e|t h|t h|]; simpl; rewrite ?app_nil_r; try reflexivity.
    unfold remove_handler. by destruct (handlers em !! t).
  - simpl. by rewrite Hq, app_nil_r.
Qed.

(** Whatever the other coroutines and the handlers themselves do while the
    processor runs (emit, add or remove handlers, stop it), events are
    dequeued for delivery in the order they were emitted, none lost or
    repeated: along any run, the events dequeued followed by those still
    queued are the events queued at the start followed by those emitted.
    Each event goes to the handlers registered for its type when it is
    dequeued ([em_deliver]). *)
Theorem process_events_fifo (em0 em1 : Emitter) (ls : list EmLabel) :
  em_steps em0 ls em1 ->
  (delivered ls ++ event_queue em1)%list = (event_queue em0 ++ emitted ls)%list.
Proof.
  induction 1 as [em|em em1 em2 l ls Hstep _ IH]; simpl.
  - by rewrite app_nil_r.
  - pose proof (em_step_queue em em1 l Hstep) as Hl. simpl in Hl.
    rewrite !app_nil_r in Hl.
    rewrite <- app_assoc, IH, app_assoc, Hl, <- app_assoc. reflexivity.
Qed.

(** A handler of [step_started] that, while it runs, emits [step_completed]
    and registers a handler for it: that handler, registered after the
    emission, receives the event. *)
Lemma process_events_fifo_witness :
  exists em1,
    em_steps (add_handler "step_started" 1 (mkEmitter ∅ [] false))
      [LOp (OEmit ev_started); LDeliver ev_started [1]; LOp (OEmit ev_completed);
       LOp (OAdd "step_completed" 2); LDeliver ev_completed [2]] em1 /\
    (delivered [LOp (OEmit ev_started); LDeliver ev_started [1]; LOp (OEmit ev_completed);
                LOp (OAdd "step_completed" 2); LDeliver ev_completed [2]] ++ event_queue em1)%list =
    (event_queue (add_handler "step_started" 1 (mkEmitter ∅ [] false)) ++
     emitted [LOp (OEmit ev_started); LDeliver ev_started [1]; LOp (OEmit ev_completed);
              LOp (OAdd "step_completed" 2); LDeliver ev_completed [2]])%list.
Proof.
  eexists. match goal with |- em_steps ?a ?b ?c /\ _ => assert (H : em_steps a b c) end.
  { repeat (eapply em_cons; [first [apply em_op | apply em_deliver; reflexivity] |]).
    apply em_refl. }
  split; [exact H | exact (process_events_fifo _ _ _ H)].
Defined.

